(** * Census income prediction service and its monitoring client

    A shallow embedding of [main.py] (the FastAPI service) and of
    [scripts/performance_monitor.py] (the monitoring client), with the
    properties of the specification proved over it.

    Conventions of the embedding:
    - Python [int] is [Z]; Python [float] (probabilities, response times,
      uptimes) is [Q]: the code only compares, subtracts, divides and takes
      maxima of these numbers;
    - a [dict] is a [gmap string _];
    - a call that may raise returns a [result]; module globals and the
      monitor object are threaded explicitly;
    - the [ml] package ([ml.data], [ml.model]) and the pickled artifacts are
      the interface [ML]: the service is verified against every
      implementation of it. *)

From Stdlib Require Import ZArith QArith Qminmax Lqa.
From stdpp Require Import gmap strings list fin_maps pretty.

Open Scope string_scope.
Open Scope Z_scope.

(** ** Python values, exceptions and results *)

(** Subclasses of [Exception] that the two programs raise or catch. *)
Inductive Exception : Type :=
| HTTPException (status_code : Z) (detail : string)
| KeyError (key : string)
| TypeError (msg : string)
| ValueError (msg : string)
| AttributeError (msg : string)
| RequestException (msg : string)
| ZeroDivisionError (msg : string)
| RuntimeError (msg : string).

(** [BaseException]: [KeyboardInterrupt] is not an [Exception]. *)
Inductive BaseException : Type :=
| KeyboardInterrupt
| Exc (e : Exception).

Inductive result (E A : Type) : Type :=
| Ok (a : A)
| Raise (e : E).
Arguments Ok {E A} a.
Arguments Raise {E A} e.

(** The values stored in the dictionaries of both programs. *)
Inductive pyval : Type :=
| PyNone
| PyBool (b : bool)
| PyInt (z : Z)
| PyFloat (q : Q)
| PyStr (s : string)
| PyObj (repr : string).

(** [str(e)] of an exception: its message; [str] of an [HTTPException] is
    empty and [str] of a [KeyError] is the [repr] of the key. *)
Definition py_repr (v : pyval) : string :=
  match v with
  | PyNone => "None"
  | PyBool true => "True"
  | PyBool false => "False"
  | PyStr s => "'" ++ s ++ "'"
  | PyObj r => r
  | PyInt _ => "<int>"
  | PyFloat _ => "<float>"
  end.

Definition str_exn (e : Exception) : string :=
  match e with
  | HTTPException _ _ => ""
  | KeyError k => k
  | TypeError m | ValueError m | AttributeError m
  | RequestException m | ZeroDivisionError m | RuntimeError m => m
  end.

(** [np.max] of a two-dimensional array: the largest entry; a
    zero-size array raises [ValueError]. *)
Definition np_max (a : list (list Q)) : result Exception Q :=
  match concat a with
  | [] => Raise (ValueError "zero-size array to reduction operation maximum which has no identity")
  | x :: xs => Ok (foldl Qmax x xs)
  end.

(** [sum(d.values())] *)
Definition sum_values (d : gmap string Z) : Z :=
  map_fold (fun _ v acc => v + acc) 0 d.

(** ** main.py *)

Module Service.

(** [class Data(BaseModel)]: a validated request body. *)
Record Data : Type := {
  age : Z;
  workclass : string;
  fnlgt : Z;
  education : string;
  education_num : Z;
  marital_status : string;
  occupation : string;
  relationship : string;
  race : string;
  sex : string;
  capital_gain : Z;
  capital_loss : Z;
  hours_per_week : Z;
  native_country : string
}.

Record PredictionResponse : Type := {
  prediction : string;
  confidence : Q;
  model_version : string;
  timestamp : string
}.

Record HealthResponse : Type := {
  h_status : string;
  h_timestamp : string;
  h_model_loaded : bool;
  h_version : string;
  h_uptime_seconds : Q
}.

Record MetricsResponse : Type := {
  m_model_performance : list (string * Q);
  m_request_count : Z;
  m_prediction_distribution : gmap string Z;
  m_uptime_seconds : Q;
  m_last_updated : string
}.

(** The [ml] package and the pickled artifacts: [load_model], [inference]
    (from [ml.model]), [process_data], [apply_label] (from [ml.data]) and the
    classifier's [predict_proba].  Each may raise. *)
Class ML : Type := {
  Artifact : Type;
  Matrix : Type;
  Prediction : Type;
  load_model : string -> result Exception Artifact;
  process_data :
    Data -> list string -> bool -> option Artifact -> result Exception Matrix;
  predict_proba : Artifact -> Matrix -> result Exception (list (list Q));
  inference : option Artifact -> Matrix -> result Exception Prediction;
  apply_label : Prediction -> result Exception pyval
}.

(** The calls into the pipeline, recorded in the order they are made. *)
Inductive Work : Type :=
| W_process_data
| W_predict_proba
| W_inference
| W_apply_label.

(** One reading of the clock: [time.time()] and
    [datetime.utcnow().isoformat()]. *)
Record Clock : Type := {
  time_time : Q;
  utcnow_isoformat : string
}.

Section WithML.
Context `{ml : ML}.

(** The module's globals, and the trace of pipeline calls made so far. *)
Record World : Type := {
  request_count : Z;
  model_predictions : gmap string Z;
  start_time : Q;
  encoder : option Artifact;
  model : option Artifact;
  model_loaded : bool;
  work : list Work
}.

(** *** The handler monad: globals are threaded, exceptions keep the state
    reached when they were raised. *)
Definition M (A : Type) : Type := World -> result Exception A * World.

Definition ret {A} (a : A) : M A := fun w => (Ok a, w).
Definition raise {A} (e : Exception) : M A := fun w => (Raise e, w).
Definition bind {A B} (m : M A) (k : A -> M B) : M B :=
  fun w => match m w with
           | (Ok a, w') => k a w'
           | (Raise e, w') => (Raise e, w')
           end.
(** [try: m except Exception as e: h e] *)
Definition try_except {A} (m : M A) (h : Exception -> M A) : M A :=
  fun w => match m w with
           | (Ok a, w') => (Ok a, w')
           | (Raise e, w') => h e w'
           end.
Definition get {A} (f : World -> A) : M A := fun w => (Ok (f w), w).
Definition modify (f : World -> World) : M unit := fun w => (Ok tt, f w).
(** A call into the pipeline: recorded, then its result or exception. *)
Definition call {A} (c : Work) (r : result Exception A) : M A :=
  fun w => (r, {| request_count := request_count w;
                  model_predictions := model_predictions w;
                  start_time := start_time w;
                  encoder := encoder w;
                  model := model w;
                  model_loaded := model_loaded w;
                  work := work w ++ [c] |}).

Notation "x <- m ;; k" := (bind m (fun x => k))
  (at level 100, m at next level, right associativity).
Notation "m ;;; k" := (bind m (fun _ => k))
  (at level 100, right associativity).

Definition set_request_count (n : Z) (w : World) : World :=
  {| request_count := n;
     model_predictions := model_predictions w;
     start_time := start_time w;
     encoder := encoder w;
     model := model w;
     model_loaded := model_loaded w;
     work := work w |}.

Definition set_model_predictions (d : gmap string Z) (w : World) : World :=
  {| request_count := request_count w;
     model_predictions := d;
     start_time := start_time w;
     encoder := encoder w;
     model := model w;
     model_loaded := model_loaded w;
     work := work w |}.

(** *** Module initialisation (lines 25-28 and 74-87) *)

Definition encoder_path : string := "./model/encoder.pkl".
Definition model_path : string := "./model/model.pkl".

Definition startup (now : Q) : World :=
  let failed :=
    {| request_count := 0;
       model_predictions := <[">50K" := 0]> (<["<=50K" := 0]> ∅);
       start_time := now;
       encoder := None; model := None; model_loaded := false;
       work := [] |} in
  match load_model encoder_path with
  | Raise _ => failed
  | Ok enc =>
      match load_model model_path with
      | Raise _ => failed
      | Ok mdl =>
          {| request_count := 0;
             model_predictions := <[">50K" := 0]> (<["<=50K" := 0]> ∅);
             start_time := now;
             encoder := Some enc; model := Some mdl; model_loaded := true;
             work := [] |}
      end
  end.

(** *** Handlers *)

Definition health_check (clk : Clock) : M HealthResponse :=
  let current_time := utcnow_isoformat clk ++ "Z" in
  start <- get start_time ;;
  let uptime := (time_time clk - start)%Q in
  loaded <- get model_loaded ;;
  ret {| h_status := if loaded then "healthy" else "unhealthy";
         h_timestamp := current_time;
         h_model_loaded := loaded;
         h_version := "1.0.0";
         h_uptime_seconds := uptime |}.

Definition get_metrics (clk : Clock) : M MetricsResponse :=
  let current_time := utcnow_isoformat clk ++ "Z" in
  start <- get start_time ;;
  let uptime := (time_time clk - start)%Q in
  let model_performance :=
    [("precision", 7369 # 10000); ("recall", 6294 # 10000);
     ("f1_score", 6789 # 10000)]%Q in
  n <- get request_count ;;
  d <- get model_predictions ;;
  ret {| m_model_performance := model_performance;
         m_request_count := n;
         m_prediction_distribution := d;
         m_uptime_seconds := uptime;
         m_last_updated := current_time |}.

Definition cat_features : list string :=
  ["workclass"; "education"; "marital-status"; "occupation";
   "relationship"; "race"; "sex"; "native-country"].

(** [model.predict_proba(X)]: an attribute of [None] does not exist. *)
Definition model_predict_proba (m : option Artifact) (X : Matrix)
  : result Exception (list (list Q)) :=
  match m with
  | Some mdl => predict_proba mdl X
  | None => Raise (AttributeError "'NoneType' object has no attribute 'predict_proba'")
  end.

(** [model_predictions[prediction_label] += 1]: reads the entry (a
    [KeyError] when the label is not a key), then stores it plus one. *)
Definition count_prediction (label : pyval) : M string :=
  d <- get model_predictions ;;
  match label with
  | PyStr l =>
      match d !! l with
      | Some n => modify (set_model_predictions (<[l := n + 1]> d)) ;;; ret l
      | None => raise (KeyError (py_repr label))
      end
  | _ => raise (KeyError (py_repr label))
  end.

Definition predict_income (clk : Clock) (data : Data) : M PredictionResponse :=
  loaded <- get model_loaded ;;
  if negb loaded then raise (HTTPException 503 "Model not available")
  else
    try_except
      (enc <- get encoder ;;
       data_processed <- call W_process_data
                           (process_data data cat_features false enc) ;;
       mdl <- get model ;;
       prediction_proba <- call W_predict_proba
                             (model_predict_proba mdl data_processed) ;;
       prediction <- call W_inference (inference mdl data_processed) ;;
       prediction_label <- call W_apply_label (apply_label prediction) ;;
       confidence <- (fun w => (np_max prediction_proba, w)) ;;
       label <- count_prediction prediction_label ;;
       ret {| prediction := label;
              confidence := confidence;
              model_version := "v1.0.0";
              timestamp := utcnow_isoformat clk ++ "Z" |})
      (fun e => raise (HTTPException 500 ("Prediction failed: " ++ str_exn e))).

(** *** Responses and routing *)

Record ModelInfo : Type := {
  model_type : string;
  features : list string;
  target_classes : list string;
  info_model_version : string;
  trained_on : string
}.

Inductive Body : Type :=
| B_json (fields : list (string * string))
| B_health (h : HealthResponse)
| B_metrics (m : MetricsResponse)
| B_model_info (i : ModelInfo)
| B_prediction (p : PredictionResponse)
| B_validation_errors
| B_text (s : string).

Record Response : Type := {
  status_code : Z;
  body : Body
}.

Definition get_root : M Body :=
  ret (B_json [("message", "Welcome to the Census Income Prediction API");
               ("version", "1.0.0");
               ("docs_url", "/docs");
               ("health_check", "/v1/health");
               ("metrics", "/v1/metrics")]).

Definition get_model_info : M Body :=
  loaded <- get model_loaded ;;
  if negb loaded then raise (HTTPException 503 "Model not loaded")
  else
    ret (B_model_info
           {| model_type := "RandomForestClassifier";
              features :=
                ["age"; "workclass"; "fnlgt"; "education"; "education-num";
                 "marital-status"; "occupation"; "relationship"; "race"; "sex";
                 "capital-gain"; "capital-loss"; "hours-per-week";
                 "native-country"];
              target_classes := [">50K"; "<=50K"];
              info_model_version := "v1.0.0";
              trained_on := "1994 US Census data" |}).

(** [JSONResponse(status_code=..., content=...)] *)
Definition JSONResponse (code : Z) (content : list (string * string)) : Response :=
  {| status_code := code; body := B_json content |}.

(** The legacy handler: the result of [predict_income], or the caught
    [HTTPException] turned into a response; any other exception passes. *)
Definition legacy_inference (clk : Clock) (data : Data) : M Response :=
  fun w =>
    match predict_income clk data w with
    | (Ok result, w') => (Ok (JSONResponse 200 [("result", prediction result)]), w')
    | (Raise (HTTPException code detail), w') =>
        (Ok (JSONResponse code [("error", detail)]), w')
    | (Raise e, w') => (Raise e, w')
    end.

(** What the framework makes of a handler's outcome: a returned value is a
    200 response, an [HTTPException] a response of its status with the body
    [{"detail": detail}], any other exception a bare 500. *)
Definition respond (h : M Response) (w : World) : Response * World :=
  match h w with
  | (Ok r, w') => (r, w')
  | (Raise (HTTPException code detail), w') =>
      (JSONResponse code [("detail", detail)], w')
  | (Raise _, w') =>
      ({| status_code := 500; body := B_text "Internal Server Error" |}, w')
  end.

Definition ok200 {A} (to_body : A -> Body) (h : M A) : M Response :=
  a <- h ;; ret {| status_code := 200; body := to_body a |}.

(** A request as the router sees it: the route, and for the two POST routes
    the outcome of validating the body against [Data] ([None]: rejected).
    [GET_docs] stands for the framework's own routes ([/docs], [/redoc],
    [/openapi.json]), [Unrouted] for any other path. *)
Inductive Request : Type :=
| GET_root
| GET_health
| GET_metrics
| GET_model_info
| GET_docs
| POST_predict (validated : option Data)
| POST_data (validated : option Data)
| Unrouted.

Definition unprocessable : Response :=
  {| status_code := 422; body := B_validation_errors |}.

Definition router (clk : Clock) (req : Request) : World -> Response * World :=
  match req with
  | GET_root => respond (ok200 id get_root)
  | GET_health => respond (ok200 B_health (health_check clk))
  | GET_metrics => respond (ok200 B_metrics (get_metrics clk))
  | GET_model_info => respond (ok200 id get_model_info)
  | GET_docs => respond (ret {| status_code := 200; body := B_text "docs" |})
  | POST_predict (Some data) => respond (ok200 B_prediction (predict_income clk data))
  | POST_predict None => respond (ret unprocessable)
  | POST_data (Some data) => respond (legacy_inference clk data)
  | POST_data None => respond (ret unprocessable)
  | Unrouted => respond (ret (JSONResponse 404 [("detail", "Not Found")]))
  end.

(** The [http] middleware: counts the request, then lets it through. *)
Definition log_requests (call_next : World -> Response * World)
  : World -> Response * World :=
  fun w => call_next (set_request_count (request_count w + 1) w).

Definition app (clk : Clock) (req : Request) : World -> Response * World :=
  log_requests (router clk req).

(** The service handling a sequence of requests, one after the other; the
    access log pairs each request with its response. *)
Fixpoint serve (reqs : list (Clock * Request)) (w : World)
  : list (Request * Response) * World :=
  match reqs with
  | [] => ([], w)
  | (clk, req) :: rest =>
      let (r, w') := app clk req w in
      let (log, w'') := serve rest w' in
      ((req, r) :: log, w'')
  end.

(** A successful prediction: a 200 answer of one of the prediction routes. *)
Definition is_prediction_request (req : Request) : bool :=
  match req with
  | POST_predict _ | POST_data _ => true
  | _ => false
  end.

Definition successful_prediction (e : Request * Response) : bool :=
  is_prediction_request (fst e) && (status_code (snd e) =? 200).

Definition failed_request (e : Request * Response) : bool :=
  negb (status_code (snd e) =? 200).

Definition count {A} (p : A -> bool) (l : list A) : Z :=
  Z.of_nat (length (filter (fun x => p x = true) l)).

(** The label and confidence of a response, when it carries a prediction. *)
Definition predicted (r : Response) : option (string * Q) :=
  match body r with
  | B_prediction p => Some (prediction p, confidence p)
  | _ => None
  end.

(** The invariant of [model_predictions]: exactly the two labels are keys. *)
Definition two_labels (d : gmap string Z) : Prop :=
  exists a b, d = <[">50K" := a]> (<["<=50K" := b]> ∅).

(** The globals a prediction may not touch. *)
Definition same_artifacts (w w' : World) : Prop :=
  model_loaded w' = model_loaded w /\
  encoder w' = encoder w /\
  model w' = model w /\
  start_time w' = start_time w.

(** The calls of the pipeline succeed with this label and confidence. *)
Definition pipeline (w : World) (d : Data) (label : pyval) (conf : Q) : Prop :=
  exists X P y,
    process_data d cat_features false (encoder w) = Ok X /\
    model_predict_proba (model w) X = Ok P /\
    inference (model w) X = Ok y /\
    apply_label y = Ok label /\
    np_max P = Ok conf.

(** The status and, for a prediction, the label and confidence: a response
    without its timestamp. *)
Definition outcome (r : Response) : Z * option (string * Q) :=
  (status_code r, predicted r).

(** What one routed request may change. *)
Definition step_ok (req : Request) (w : World) (r : Response) (w' : World) : Prop :=
  same_artifacts w w' /\
  (model_loaded w = false -> work w' = work w) /\
  (two_labels (model_predictions w) ->
   two_labels (model_predictions w') /\
   sum_values (model_predictions w') =
     sum_values (model_predictions w) +
     (if successful_prediction (req, r) then 1 else 0)).

(** The globals a prediction reads: the artifacts and the keys of
    [model_predictions]. *)
Definition same_inputs (w1 w2 : World) : Prop :=
  same_artifacts w1 w2 /\
  forall l, is_Some (model_predictions w1 !! l) <->
            is_Some (model_predictions w2 !! l).

(** Two results of [predict_income] that differ at most in the timestamp. *)
Definition same_result (r1 r2 : result Exception PredictionResponse) : Prop :=
  match r1, r2 with
  | Ok p1, Ok p2 =>
      prediction p1 = prediction p2 /\ confidence p1 = confidence p2
  | Raise e1, Raise e2 => e1 = e2
  | _, _ => False
  end.

End WithML.
End Service.

(** ** scripts/performance_monitor.py *)

Module Monitor.

Abbreviation pydict := (gmap string pyval).

Notation "x <- m ;; k" :=
  (match m with Ok x => k | Raise e => Raise e end)
  (at level 100, m at next level, right associativity).

(** *** Python operators on dictionary values *)

(** [d[k]] *)
Definition getitem (d : pydict) (k : string) : result BaseException pyval :=
  match d !! k with
  | Some v => Ok v
  | None => Raise (Exc (KeyError (py_repr (PyStr k))))
  end.

(** [d.get(k, default)]: the default stands in for a missing key only. *)
Definition dict_get (d : pydict) (k : string) (default : pyval) : pyval :=
  match d !! k with
  | Some v => v
  | None => default
  end.

(** A value as a number, where Python accepts it as one. *)
Definition number_of (op : string) (v : pyval) : result BaseException Q :=
  match v with
  | PyInt z => Ok (inject_Z z)
  | PyFloat q => Ok q
  | PyBool b => Ok (inject_Z (if b then 1 else 0))
  | PyNone =>
      Raise (Exc (TypeError (op ++ " not supported between instances of 'NoneType' and 'float'")))
  | PyStr _ =>
      Raise (Exc (TypeError (op ++ " not supported between instances of 'str' and 'float'")))
  | PyObj _ =>
      Raise (Exc (TypeError (op ++ " not supported between instances of 'dict' and 'float'")))
  end.

(** [f"{v:.1%}"]: formatting as a percentage needs a number. *)
Definition format_percent (v : pyval) : result BaseException Q :=
  match v with
  | PyInt z => Ok (inject_Z z)
  | PyFloat q => Ok q
  | PyBool b => Ok (inject_Z (if b then 1 else 0))
  | PyNone =>
      Raise (Exc (TypeError "unsupported format string passed to NoneType.__format__"))
  | PyStr _ => Raise (Exc (ValueError "Unknown format code '%' for object of type 'str'"))
  | PyObj _ =>
      Raise (Exc (TypeError "unsupported format string passed to dict.__format__"))
  end.

(** [v > bound] and [v < bound] against a float literal. *)
Definition py_gt (v : pyval) (bound : Q) : result BaseException bool :=
  x <- number_of "'>'" v ;; Ok (negb (Qle_bool x bound)).

Definition py_lt (v : pyval) (bound : Q) : result BaseException bool :=
  x <- number_of "'<'" v ;; Ok (negb (Qle_bool bound x)).

(** [v != s] for a string literal [s] *)
Definition py_ne_str (v : pyval) (s : string) : bool :=
  match v with
  | PyStr t => negb (String.eqb t s)
  | _ => true
  end.

Definition py_eq_str (v : pyval) (s : string) : bool := negb (py_ne_str v s).

(** [l[-n:]] for a positive [n]: the last [n] elements, or all of [l]. *)
Definition slice_last {A} (n : nat) (l : list A) : list A :=
  drop (length l - n)%nat l.

(** *** The [statistics] functions used, on a non-empty sample *)

Definition mean (xs : list Q) : Q :=
  (foldr Qplus 0 xs / inject_Z (Z.of_nat (length xs)))%Q.

Fixpoint insert_sorted (x : Q) (l : list Q) : list Q :=
  match l with
  | [] => [x]
  | y :: l' => if Qle_bool x y then x :: l else y :: insert_sorted x l'
  end.

Definition sorted (l : list Q) : list Q := foldr insert_sorted [] l.

Definition median (xs : list Q) : Q :=
  let data := sorted xs in
  let n := length data in
  if Nat.odd n then nth (n / 2) data 0%Q
  else ((nth (n / 2 - 1) data 0 + nth (n / 2) data 0) / 2)%Q.

Definition minimum (xs : list Q) : Q :=
  match xs with [] => 0%Q | x :: r => foldl Qmin x r end.

Definition maximum (xs : list Q) : Q :=
  match xs with [] => 0%Q | x :: r => foldl Qmax x r end.

(** [f(xs) if xs else None] *)
Definition stat (f : list Q -> Q) (xs : list Q) : pyval :=
  match xs with [] => PyNone | _ => PyFloat (f xs) end.

(** *** Network calls

    What [requests.get]/[requests.post] came to: a response (status code,
    parsed JSON object, time the call took) or a [RequestException]
    (connection refused, timeout, ...). *)
Inductive HttpOutcome : Type :=
| Responded (status_code : Z) (json : pydict) (response_time : Q)
| Failed (error : string).

Definition check_health (net : HttpOutcome) : pydict :=
  match net with
  | Responded status_code data response_time =>
      if status_code =? 200 then
        <["status" := PyStr "healthy"]>
        (<["response_time" := PyFloat response_time]>
        (<["model_loaded" := dict_get data "model_loaded" (PyBool false)]>
        (<["uptime_seconds" := dict_get data "uptime_seconds" (PyInt 0)]> ∅)))
      else
        <["status" := PyStr "unhealthy"]>
        (<["response_time" := PyFloat response_time]>
        (<["error" := PyStr ("HTTP " ++ pretty status_code)]> ∅))
  | Failed e =>
      <["status" := PyStr "error"]>
      (<["error" := PyStr e]>
      (<["response_time" := PyNone]> ∅))
  end.

Definition check_prediction_performance (net : HttpOutcome) : pydict :=
  match net with
  | Responded status_code data response_time =>
      if status_code =? 200 then
        <["status" := PyStr "success"]>
        (<["response_time" := PyFloat response_time]>
        (<["prediction" := dict_get data "prediction" PyNone]>
        (<["confidence" := dict_get data "confidence" PyNone]> ∅)))
      else
        <["status" := PyStr "error"]>
        (<["response_time" := PyFloat response_time]>
        (<["error" := PyStr ("HTTP " ++ pretty status_code)]> ∅))
  | Failed e =>
      <["status" := PyStr "error"]>
      (<["error" := PyStr e]>
      (<["response_time" := PyNone]> ∅))
  end.

Definition get_api_metrics (net : HttpOutcome) : pydict :=
  match net with
  | Responded status_code data _ =>
      if status_code =? 200 then data
      else <["error" := PyStr ("HTTP " ++ pretty status_code)]> ∅
  | Failed e => <["error" := PyStr e]> ∅
  end.

(** [[r['response_time'] for r in results if r.get('response_time') is not None]] *)
Fixpoint response_times (results : list pydict) : result BaseException (list Q) :=
  match results with
  | [] => Ok []
  | r :: rest =>
      match dict_get r "response_time" PyNone with
      | PyNone => response_times rest
      | _ =>
          v <- getitem r "response_time" ;;
          x <- number_of "'<'" v ;;
          xs <- response_times rest ;;
          Ok (x :: xs)
      end
  end.

Fixpoint count_success (results : list pydict) : result BaseException Z :=
  match results with
  | [] => Ok 0
  | r :: rest =>
      s <- getitem r "status" ;;
      n <- count_success rest ;;
      Ok (if py_eq_str s "success" then n + 1 else n)
  end.

(** [run_load_test]: [nets] are the outcomes of the requests of the threads
    that finished, [total_time] the time the batch took. *)
Definition run_load_test (num_requests : Z) (nets : list HttpOutcome)
    (total_time : Q) : result BaseException pydict :=
  let results := map check_prediction_performance nets in
  successful_requests <- count_success results ;;
  times <- response_times results ;;
  if num_requests =? 0 then Raise (Exc (ZeroDivisionError "division by zero"))
  else
    Ok (<["total_requests" := PyInt num_requests]>
       (<["successful_requests" := PyInt successful_requests]>
       (<["success_rate" :=
            PyFloat (inject_Z successful_requests / inject_Z num_requests)]>
       (<["total_time" := PyFloat total_time]>
       (<["avg_response_time" := stat mean times]>
       (<["min_response_time" := stat minimum times]>
       (<["max_response_time" := stat maximum times]>
       (<["median_response_time" := stat median times]> ∅)))))))).

(** *** The monitor object *)

Record Metrics : Type := {
  timestamp : string;
  health : pydict;
  prediction : pydict;
  api_metrics : pydict;
  load_test : pydict
}.

Inductive Alert : Type :=
| ApiHealth (status : pyval)
| SlowHealthResponse (response_time : pyval)
| SlowPredictionResponse (response_time : pyval)
| LowSuccessRate (success_rate : pyval).

Record APIMonitor : Type := {
  base_url : string;
  interval : Z;
  metrics_history : list Metrics;
  running : bool;
  warnings : list Alert;          (* what [logger.warning] received *)
  saved : list (list Metrics)     (* what [save_metrics] wrote, call by call *)
}.

Definition init (base_url : string) (interval : Z) : APIMonitor :=
  {| base_url := base_url; interval := interval; metrics_history := [];
     running := false; warnings := []; saved := [] |}.

Definition set_history (h : list Metrics) (m : APIMonitor) : APIMonitor :=
  {| base_url := base_url m; interval := interval m; metrics_history := h;
     running := running m; warnings := warnings m; saved := saved m |}.

Definition set_running (b : bool) (m : APIMonitor) : APIMonitor :=
  {| base_url := base_url m; interval := interval m;
     metrics_history := metrics_history m;
     running := b; warnings := warnings m; saved := saved m |}.

Definition log_warnings (a : list Alert) (m : APIMonitor) : APIMonitor :=
  {| base_url := base_url m; interval := interval m;
     metrics_history := metrics_history m;
     running := running m; warnings := warnings m ++ a; saved := saved m |}.

Definition save_metrics (m : APIMonitor) : APIMonitor :=
  {| base_url := base_url m; interval := interval m;
     metrics_history := metrics_history m;
     running := running m; warnings := warnings m;
     saved := saved m ++ [metrics_history m] |}.

(** What one cycle of the loop meets: the clock, the outcome of each network
    call, and whether Ctrl-C arrives while the loop sleeps. *)
Record Cycle : Type := {
  c_timestamp : string;
  c_health : HttpOutcome;
  c_prediction : HttpOutcome;
  c_api_metrics : HttpOutcome;
  c_load_test : list HttpOutcome;
  c_load_test_time : Q;
  c_interrupt : bool
}.

Definition collect_metrics (c : Cycle) (m : APIMonitor)
  : result BaseException Metrics * APIMonitor :=
  let health := check_health (c_health c) in
  let prediction := check_prediction_performance (c_prediction c) in
  let api_metrics := get_api_metrics (c_api_metrics c) in
  match run_load_test 5 (c_load_test c) (c_load_test_time c) with
  | Raise e => (Raise e, m)
  | Ok load_test =>
      let metrics :=
        {| timestamp := c_timestamp c; health := health;
           prediction := prediction; api_metrics := api_metrics;
           load_test := load_test |} in
      let history := (metrics_history m ++ [metrics])%list in
      let history :=
        if (100 <? length history)%nat then slice_last 100 history
        else history in
      (Ok metrics, set_history history m)
  end.

Definition check_alerts (metrics : Metrics) (m : APIMonitor)
  : result BaseException unit * APIMonitor :=
  let alerts : list Alert := [] in
  match
    (status <- getitem (health metrics) "status" ;;
     let alerts :=
       if py_ne_str status "healthy" then (alerts ++ [ApiHealth status])%list
       else alerts in
     slow <- py_gt (dict_get (health metrics) "response_time" (PyInt 0)) 5 ;;
     alerts <-
       (if slow : bool then
          t <- getitem (health metrics) "response_time" ;;
          Ok (alerts ++ [SlowHealthResponse t])%list
        else Ok alerts) ;;
     slow <- py_gt (dict_get (prediction metrics) "response_time" (PyInt 0)) 2 ;;
     alerts <-
       (if slow : bool then
          t <- getitem (prediction metrics) "response_time" ;;
          Ok (alerts ++ [SlowPredictionResponse t])%list
        else Ok alerts) ;;
     rate <- getitem (load_test metrics) "success_rate" ;;
     low <- py_lt rate (8 # 10) ;;
     Ok (if low : bool then (alerts ++ [LowSuccessRate rate])%list else alerts))
  with
  | Raise e => (Raise e, m)
  | Ok alerts => (Ok tt, log_warnings alerts m)   (* the [for alert in alerts] loop *)
  end.

(** One pass through the body of the [while] loop. *)
Definition cycle (c : Cycle) (m : APIMonitor)
  : result BaseException unit * APIMonitor :=
  match collect_metrics c m with
  | (Raise e, m) => (Raise e, m)
  | (Ok metrics, m) =>
      match
        (health_status <- getitem (health metrics) "status" ;;
         pred_status <- getitem (prediction metrics) "status" ;;
         success_rate <- getitem (load_test metrics) "success_rate" ;;
         format_percent success_rate)
      with
      | Raise e => (Raise e, m)
      | Ok _ =>
          match check_alerts metrics m with
          | (Raise e, m) => (Raise e, m)
          | (Ok _, m) =>
              (* [time.sleep(self.interval)] *)
              if c_interrupt c then (Raise KeyboardInterrupt, m) else (Ok tt, m)
          end
      end
  end.

(** [while self.running: ...] over the cycles the monitor lives through. *)
Fixpoint while_running (cycles : list Cycle) (m : APIMonitor)
  : option (result BaseException unit) * APIMonitor * nat :=
  match cycles with
  | [] => (None, m, 0%nat)
  | c :: rest =>
      if running m then
        match cycle c m with
        | (Ok _, m') =>
            let '(r, m'', n) := while_running rest m' in (r, m'', S n)
        | (Raise e, m') => (Some (Raise e), m', 0%nat)
        end
      else (Some (Ok tt), m, 0%nat)
  end.

(** How [start_monitoring] ends. *)
Inductive Exit : Type :=
| StillRunning                (* the loop outlives the cycles given *)
| Returned                    (* left the loop, or interrupt caught *)
| Propagated (e : Exception). (* an exception leaves [start_monitoring] *)

(** [start_monitoring]: the exit, the monitor, and the cycles completed. *)
Definition start_monitoring (cycles : list Cycle) (m : APIMonitor)
  : Exit * APIMonitor * nat :=
  let m := set_running true m in
  match while_running cycles m with
  | (None, m, n) => (StillRunning, m, n)
  | (Some (Ok _), m, n) => (Returned, save_metrics (set_running false m), n)
  | (Some (Raise KeyboardInterrupt), m, n) =>
      (Returned, save_metrics (set_running false m), n)
  | (Some (Raise (Exc e)), m, n) =>
      (Propagated e, save_metrics (set_running false m), n)
  end.

End Monitor.

(** ** Concrete artifacts and requests, used in the examples *)

Module Fixtures.
Import Service.

(** Artifacts that load, with a threshold on the capital gain as
    classifier. *)
Definition threshold_ml : ML :=
  {| Artifact := unit;
     Matrix := Z;
     Prediction := Z;
     load_model := fun _ => Ok tt;
     process_data := fun d _ _ enc =>
       match enc with
       | Some _ => Ok (capital_gain d)
       | None => Raise (AttributeError "'NoneType' object has no attribute 'transform'")
       end;
     predict_proba := fun _ x =>
       Ok [if 5000 <? x then [2 # 10; 8 # 10] else [9 # 10; 1 # 10]]%Q;
     inference := fun _ x => Ok (if 5000 <? x then 1 else 0);
     apply_label := fun y => Ok (PyStr (if y =? 1 then ">50K" else "<=50K")) |}.

(** The same package when the pickled files are missing. *)
Definition missing_ml : ML :=
  {| Artifact := unit;
     Matrix := Z;
     Prediction := Z;
     load_model := fun _ => Raise (RuntimeError "[Errno 2] No such file or directory");
     process_data := @process_data threshold_ml;
     predict_proba := @predict_proba threshold_ml;
     inference := @inference threshold_ml;
     apply_label := @apply_label threshold_ml |}.

(** The request body of the end-to-end scenario. *)
Definition sample : Data :=
  {| age := 37; workclass := "Private"; fnlgt := 178356;
     education := "HS-grad"; education_num := 10;
     marital_status := "Married-civ-spouse";
     occupation := "Prof-specialty"; relationship := "Husband";
     race := "White"; sex := "Male"; capital_gain := 0; capital_loss := 0;
     hours_per_week := 40; native_country := "United-States" |}.

Definition noon : Clock :=
  {| time_time := 100; utcnow_isoformat := "2024-01-01T12:00:00" |}.

(** The service started at time 0, with and without its artifacts. *)
Definition service_up : World (ml := threshold_ml) :=
  startup (ml := threshold_ml) 0.

Definition service_down : World (ml := missing_ml) :=
  startup (ml := missing_ml) 0.

(** Network outcomes for the monitor: the service answering in a tenth of a
    second, and the service unreachable. *)
Definition answering : Monitor.HttpOutcome :=
  Monitor.Responded 200 (<["model_loaded" := PyBool true]> ∅) (1 # 10).

Definition unreachable : Monitor.HttpOutcome :=
  Monitor.Failed "Connection refused".

Definition cycle_with (health : Monitor.HttpOutcome) : Monitor.Cycle :=
  {| Monitor.c_timestamp := "2024-01-01T12:00:00";
     Monitor.c_health := health;
     Monitor.c_prediction := answering;
     Monitor.c_api_metrics := answering;
     Monitor.c_load_test := [answering; answering; answering; answering; answering];
     Monitor.c_load_test_time := 1 # 2;
     Monitor.c_interrupt := false |}.

End Fixtures.

(** ** Further parts of the two programs *)

(** What travels on the wire. *)
Module Wire.
Import Service.

(** [data.dict(by_alias=True)]: the fields of [Data] under their aliases, in
    the order of the class. *)
Definition data_dict (d : Data) : list (string * pyval) :=
  [("age", PyInt (age d));
   ("workclass", PyStr (workclass d));
   ("fnlgt", PyInt (fnlgt d));
   ("education", PyStr (education d));
   ("education-num", PyInt (education_num d));
   ("marital-status", PyStr (marital_status d));
   ("occupation", PyStr (occupation d));
   ("relationship", PyStr (relationship d));
   ("race", PyStr (race d));
   ("sex", PyStr (sex d));
   ("capital-gain", PyInt (capital_gain d));
   ("capital-loss", PyInt (capital_loss d));
   ("hours-per-week", PyInt (hours_per_week d));
   ("native-country", PyStr (native_country d))].

(** The label a response carries: [prediction] of a [PredictionResponse],
    or the value of a body [{"result": label}]. *)
Definition answered_label (r : Response) : option string :=
  match body r with
  | B_prediction p => Some (prediction p)
  | B_json [(k, l)] => if String.eqb k "result" then Some l else None
  | _ => None
  end.

(** The value of the key ["detail"] of an error body. *)
Definition error_detail (r : Response) : option string :=
  match body r with
  | B_json [(k, v)] => if String.eqb k "detail" then Some v else None
  | _ => None
  end.

(** The routes whose handler starts with the [model_loaded] guard, reached
    with a body that passed validation. *)
Definition needs_model (req : Request) : bool :=
  match req with
  | GET_model_info | POST_predict (Some _) | POST_data (Some _) => true
  | _ => false
  end.

(** The globals once the middleware has counted a request. *)
Definition counted `{ml : ML} (w : World) : World :=
  set_request_count (request_count w + 1) w.

(** The calls of a complete pass through the pipeline. *)
Definition full_pipeline : list Work :=
  [W_process_data; W_predict_proba; W_inference; W_apply_label].

End Wire.

(** [APIMonitor.generate_report] and [APIMonitor.stop_monitoring]. *)
Module Report.
Import Monitor.

Record Report : Type := {
  period : string;
  availability : Q;
  health_avg_response_time : pyval;
  prediction_avg_response_time : pyval;
  prediction_max_response_time : pyval;
  avg_success_rate : pyval;
  min_success_rate : pyval;
  latest_metrics : option Metrics
}.

(** The two shapes of the dictionary returned. *)
Inductive ReportOrError : Type :=
| NoReport (error : string)
| FullReport (r : Report).

(** [[m['health']['status'] for m in recent_metrics]] *)
Fixpoint health_statuses (recent : list Metrics)
  : result BaseException (list pyval) :=
  match recent with
  | [] => Ok []
  | m :: rest =>
      s <- getitem (health m) "status" ;;
      ss <- health_statuses rest ;;
      Ok (s :: ss)
  end.

(** [sum(1 for status in health_statuses if status == 'healthy')] *)
Definition healthy_count (statuses : list pyval) : Z :=
  Z.of_nat (length (filter (fun s => py_eq_str s "healthy" = true) statuses)).

(** [[m['load_test']['success_rate'] for m in recent_metrics
      if 'load_test' in m and 'success_rate' in m['load_test']]], as the
    numbers [statistics.mean] and [min] need. *)
Fixpoint success_rates (recent : list Metrics)
  : result BaseException (list Q) :=
  match recent with
  | [] => Ok []
  | m :: rest =>
      match load_test m !! "success_rate" with
      | None => success_rates rest
      | Some v =>
          x <- number_of "'<'" v ;;
          xs <- success_rates rest ;;
          Ok (x :: xs)
      end
  end.

Definition generate_report (m : APIMonitor)
  : result BaseException ReportOrError :=
  match metrics_history m with
  | [] => Ok (NoReport "No metrics available")
  | _ =>
      let recent_metrics := slice_last 10 (metrics_history m) in
      statuses <- health_statuses recent_metrics ;;
      let healthy := healthy_count statuses in
      health_response_times <- response_times (map health recent_metrics) ;;
      prediction_response_times <-
        response_times (map prediction recent_metrics) ;;
      rates <- success_rates recent_metrics ;;
      Ok (FullReport
            {| period := "Last " ++ pretty (length recent_metrics) ++ " checks";
               availability :=
                 (inject_Z healthy
                  / inject_Z (Z.of_nat (length recent_metrics)))%Q;
               health_avg_response_time := stat mean health_response_times;
               prediction_avg_response_time :=
                 stat mean prediction_response_times;
               prediction_max_response_time :=
                 stat maximum prediction_response_times;
               avg_success_rate := stat mean rates;
               min_success_rate := stat minimum rates;
               latest_metrics := last recent_metrics |})
  end.

Definition stop_monitoring (m : APIMonitor) : APIMonitor :=
  set_running false m.

(** The outcomes of a cycle that are answered with status 200. *)
Definition is_200 (net : HttpOutcome) : bool :=
  match net with
  | Responded code _ _ => code =? 200
  | Failed _ => false
  end.

(** How many outcomes are answered with status 200. *)
Definition successes (nets : list HttpOutcome) : Z :=
  Z.of_nat (length (filter (fun net => is_200 net = true) nets)).

(** The response times of the outcomes that are answered at all. *)
Definition answered_times (nets : list HttpOutcome) : list Q :=
  omap (fun net => match net with
                   | Responded _ _ t => Some t
                   | Failed _ => None
                   end) nets.


(** The metrics that [collect_metrics] builds: what [check_health] and
    [check_prediction_performance] return, and a load test with a success
    rate. *)
Definition collected (m : Metrics) : Prop :=
  (exists net, health m = check_health net) /\
  (exists net, prediction m = check_prediction_performance net) /\
  (exists rate, load_test m !! "success_rate" = Some (PyFloat rate)).

(** [APIMonitor.print_report]: the lines printed, each with the value it
    formats ([.1%], [.3f], [.1f] are left to the reader of the line). *)
Inductive Line : Type :=
| L_error (error : string)                 (* "Error: ..." *)
| L_title                                  (* the ruled title block *)
| L_period (period : string)
| L_heading (title : string)               (* "HEALTH:", ... *)
| L_availability (a : Q)
| L_health_avg_response_time (t : Q)
| L_prediction_avg_response_time (t : Q)
| L_prediction_max_response_time (t : Q)
| L_avg_success_rate (r : Q)
| L_min_success_rate (r : Q)
| L_health (status : string)
| L_total_requests (n : pyval)
| L_uptime_hours (h : Q)
| L_rule.

(** Truth value of a value in an [if]. *)
Definition truthy (v : pyval) : bool :=
  match v with
  | PyNone => false
  | PyBool b => b
  | PyInt z => negb (z =? 0)
  | PyFloat q => negb (Qeq_bool q 0)
  | PyStr s => negb (String.eqb s "")
  | PyObj _ => true    (* a JSON array or object with members *)
  end.

(** [if v: print(f"...{v:.3f}")] *)
Definition print_if (line : Q -> Line) (v : pyval)
  : result BaseException (list Line) :=
  if truthy v then x <- number_of "format" v ;; Ok [line x] else Ok [].

(** [str.upper] on ASCII letters. *)
Definition upper_ascii (a : Ascii.ascii) : Ascii.ascii :=
  let n := Ascii.nat_of_ascii a in
  if ((97 <=? n) && (n <=? 122))%nat then Ascii.ascii_of_nat (n - 32) else a.

Fixpoint upper (s : string) : string :=
  match s with
  | EmptyString => EmptyString
  | String a s' => String (upper_ascii a) (upper s')
  end.

(** The block under "CURRENT STATUS:". *)
Definition print_status (latest : Metrics)
  : result BaseException (list Line) :=
  status <-
    (match dict_get (health latest) "status" (PyStr "unknown") with
     | PyStr s => Ok (upper s)
     | _ => Raise (Exc (AttributeError "object has no attribute 'upper'"))
     end) ;;
  let requests :=
    match api_metrics latest !! "request_count" with
    | Some n => [L_total_requests n]
    | None => []
    end in
  uptime <-
    (match api_metrics latest !! "uptime_seconds" with
     | Some v => x <- number_of "'/'" v ;; Ok [L_uptime_hours (x / 3600)]
     | None => Ok []
     end) ;;
  Ok ([L_heading "CURRENT STATUS:"; L_health status] ++ requests ++ uptime)%list.

(** The lines of a report that is printed to its end; when an exception
    ends it earlier, only the exception is kept. *)
Definition print_report (m : APIMonitor) : result BaseException (list Line) :=
  report <- generate_report m ;;
  match report with
  | NoReport error => Ok [L_error error]
  | FullReport r =>
      health_avg <-
        print_if L_health_avg_response_time (health_avg_response_time r) ;;
      prediction_avg <-
        print_if L_prediction_avg_response_time
                 (prediction_avg_response_time r) ;;
      prediction_max <-
        print_if L_prediction_max_response_time
                 (prediction_max_response_time r) ;;
      avg_rate <- print_if L_avg_success_rate (avg_success_rate r) ;;
      min_rate <- print_if L_min_success_rate (min_success_rate r) ;;
      status <-
        (match latest_metrics r with
         | Some latest => print_status latest
         | None => Ok []
         end) ;;
      Ok ([L_title; L_period (period r);
           L_heading "HEALTH:"; L_availability (availability r)]
          ++ health_avg
          ++ [L_heading "PREDICTION PERFORMANCE:"]
          ++ prediction_avg ++ prediction_max
          ++ [L_heading "LOAD TEST:"]
          ++ avg_rate ++ min_rate
          ++ status
          ++ [L_rule])%list
  end.

(** What [stat] returns: [None] or a number. *)
Definition is_stat (v : pyval) : Prop := v = PyNone \/ exists q, v = PyFloat q.

(** The uptime that the newest entry holds is a number, or is missing. *)
Definition numeric_uptime (m : APIMonitor) : Prop :=
  forall latest v,
    last (metrics_history m) = Some latest ->
    api_metrics latest !! "uptime_seconds" = Some v ->
    exists q, v = PyFloat q.

(** The entry that a cycle adds to the history. *)
Definition entry_of (c : Cycle) (x : Metrics) : Prop :=
  timestamp x = c_timestamp c /\
  health x = check_health (c_health c) /\
  prediction x = check_prediction_performance (c_prediction c) /\
  api_metrics x = get_api_metrics (c_api_metrics c) /\
  run_load_test 5 (c_load_test c) (c_load_test_time c) = Ok (load_test x).


End Report.

(** Artifacts whose encoder rejects some records and whose classes are not
    all named by [apply_label]. *)
Module Scenarios.
Import Service.

Definition fragile_ml : ML :=
  {| Artifact := unit;
     Matrix := Z;
     Prediction := Z;
     load_model := fun _ => Ok tt;
     process_data := fun d _ _ _ =>
       if age d <? 0 then Raise (ValueError "Input contains a negative age")
       else Ok (capital_gain d);
     predict_proba := fun _ x => Ok [[1 # 2; 1 # 2]]%Q;
     inference := fun _ x => Ok (x / 5000);
     apply_label := fun y =>
       Ok (if y =? 1 then PyStr ">50K"
           else if y =? 0 then PyStr "<=50K" else PyNone) |}.

Definition fragile_service : World (ml := fragile_ml) :=
  startup (ml := fragile_ml) 0.

Definition with_age (a : Z) (d : Data) : Data :=
  {| age := a; workclass := workclass d; fnlgt := fnlgt d;
     education := education d; education_num := education_num d;
     marital_status := marital_status d; occupation := occupation d;
     relationship := relationship d; race := race d; sex := sex d;
     capital_gain := capital_gain d; capital_loss := capital_loss d;
     hours_per_week := hours_per_week d;
     native_country := native_country d |}.


Definition unborn : Data := with_age (-1) Fixtures.sample.

(** For the monitor: a slow answer with status 503, a cycle interrupted
    during its sleep, and the monitor after one cycle in which the service
    could not be reached. *)
Definition overloaded : Monitor.HttpOutcome := Monitor.Responded 503 ∅ 7.


Definition fresh_monitor : Monitor.APIMonitor :=
  Monitor.init "http://localhost:8000" 60.

Definition after_outage : Monitor.APIMonitor :=
  (Monitor.collect_metrics (Fixtures.cycle_with Fixtures.unreachable)
     fresh_monitor).2.

End Scenarios.

(** * Properties of the service *)

Import Service.

Section ServiceProperties.
Context `{ml : ML}.

#[local] Instance same_artifacts_refl : Reflexive same_artifacts.
Proof. by intros w. Qed.

#[local] Instance same_artifacts_trans : Transitive same_artifacts.
Proof.
  intros w1 w2 w3 (?&?&?&?) (?&?&?&?).
  repeat split; congruence.
Qed.

Lemma sum_values_two_labels (a b : Z) :
  sum_values (<[">50K" := a]> (<["<=50K" := b]> ∅)) = a + b.
Proof.
  unfold sum_values.
  rewrite map_fold_insert_L; [|intros; lia|by simplify_map_eq].
  rewrite map_fold_insert_L; [|intros; lia|by simplify_map_eq].
  rewrite map_fold_empty. lia.
Qed.

(** Counting a label keeps the key set and adds one to the sum. *)
Lemma two_labels_count (d : gmap string Z) (l : string) (n : Z) :
  two_labels d -> d !! l = Some n ->
  two_labels (<[l := n + 1]> d) /\
  sum_values (<[l := n + 1]> d) = sum_values d + 1.
Proof.
  intros (a & b & ->) Hl.
  destruct (decide (l = ">50K")) as [->|Hne1].
  - rewrite lookup_insert_eq in Hl. injection Hl as <-.
    rewrite insert_insert_eq. split; [by eexists _, _|].
    rewrite !sum_values_two_labels. lia.
  - rewrite lookup_insert_ne in Hl by done.
    destruct (decide (l = "<=50K")) as [->|Hne2].
    + rewrite lookup_insert_eq in Hl. injection Hl as <-.
      rewrite (insert_insert_ne _ "<=50K" ">50K") by done.
      rewrite insert_insert_eq. split; [by eexists _, _|].
      rewrite !sum_values_two_labels. lia.
    + rewrite lookup_insert_ne in Hl by done. by rewrite lookup_empty in Hl.
Qed.

Lemma two_labels_key (d : gmap string Z) (l : string) :
  two_labels d -> is_Some (d !! l) <-> l = ">50K" \/ l = "<=50K".
Proof.
  intros (a & b & ->). split.
  - intros [n Hn].
    destruct (decide (l = ">50K")); [by left|].
    destruct (decide (l = "<=50K")); [by right|].
    by simplify_map_eq.
  - intros [-> | ->]; simplify_map_eq; eauto.
Qed.

(** *** [predict_income] *)

Ltac run_handler :=
  unfold predict_income, count_prediction, try_except, bind, get, modify,
    call, raise, ret; simpl.

Lemma predict_income_unloaded clk d w :
  model_loaded w = false ->
  predict_income clk d w = (Raise (HTTPException 503 "Model not available"), w).
Proof. intros H. run_handler. by rewrite H. Qed.

Lemma predict_income_ok clk d w l c n :
  model_loaded w = true ->
  pipeline w d (PyStr l) c ->
  model_predictions w !! l = Some n ->
  exists w',
    predict_income clk d w =
      (Ok {| prediction := l; confidence := c; model_version := "v1.0.0";
             timestamp := utcnow_isoformat clk ++ "Z" |}, w') /\
    same_artifacts w w' /\
    request_count w' = request_count w /\
    model_predictions w' = <[l := n + 1]> (model_predictions w) /\
    work w' = (work w ++ [W_process_data; W_predict_proba; W_inference;
                          W_apply_label])%list.
Proof.
  intros Hl (X & P & y & HX & HP & Hy & Hlab & Hc) Hn.
  run_handler. rewrite Hl; simpl.
  rewrite HX, HP, Hy, Hlab, Hc, Hn; simpl.
  eexists; split; [reflexivity|]. simpl.
  repeat split. by rewrite <- !app_assoc.
Qed.

Lemma predict_income_inv clk d w r w' :
  predict_income clk d w = (r, w') ->
  same_artifacts w w' /\
  request_count w' = request_count w /\
  match r with
  | Ok p =>
      model_loaded w = true /\
      pipeline w d (PyStr (prediction p)) (confidence p) /\
      exists n, model_predictions w !! prediction p = Some n /\
                model_predictions w' = <[prediction p := n + 1]> (model_predictions w)
  | Raise e =>
      model_predictions w' = model_predictions w /\
      ((model_loaded w = false /\ w' = w /\
        e = HTTPException 503 "Model not available") \/
       (model_loaded w = true /\ exists msg, e = HTTPException 500 msg))
  end.
Proof.
  run_handler.
  destruct (model_loaded w) eqn:Hl; simpl;
    [|intros [= <- <-]; repeat split; by left].
  destruct (process_data _ _ _ _) as [X|e] eqn:HX; simpl;
    [|intros [= <- <-]; repeat split; right; eauto].
  destruct (model_predict_proba _ _) as [P|e] eqn:HP; simpl;
    [|intros [= <- <-]; repeat split; right; eauto].
  destruct (inference _ _) as [y|e] eqn:Hy; simpl;
    [|intros [= <- <-]; repeat split; right; eauto].
  destruct (apply_label _) as [lab|e] eqn:Hlab; simpl;
    [|intros [= <- <-]; repeat split; right; eauto].
  destruct (np_max _) as [c|e] eqn:Hc; simpl;
    [|intros [= <- <-]; repeat split; right; eauto].
  destruct lab as [| | | |l|]; simpl;
    try (intros [= <- <-]; repeat split; right; eauto).
  destruct (model_predictions w !! l) as [n|] eqn:Hn; simpl;
    [|intros [= <- <-]; repeat split; right; eauto].
  intros [= <- <-]; simpl. repeat split; [by exists X, P, y|eauto].
Qed.

(** *** The router and the middleware *)

Ltac run_router :=
  unfold app, log_requests, router, respond, ok200, legacy_inference,
    health_check, get_metrics, get_root, get_model_info, unprocessable,
    JSONResponse, bind, get, raise, ret; simpl.

Lemma step_ok_unchanged req w r :
  successful_prediction (req, r) = false -> step_ok req w r w.
Proof.
  intros H. unfold step_ok. rewrite H.
  repeat split; auto. lia.
Qed.

Lemma step_ok_prediction req clk d w res w1 r :
  is_prediction_request req = true ->
  predict_income clk d w = (res, w1) ->
  (status_code r = 200 <-> exists p, res = Ok p) ->
  step_ok req w r w1.
Proof.
  intros Hreq E Hst.
  apply predict_income_inv in E as (Hsa & _ & H).
  unfold step_ok, successful_prediction; simpl. rewrite Hreq; simpl.
  destruct res as [p|e].
  - destruct H as (Hl & _ & n & Hn & Hw1).
    split; [done|]. split; [congruence|].
    intros Htwo. rewrite Hw1.
    replace (status_code r =? 200) with true
      by (symmetry; apply Z.eqb_eq, Hst; eauto).
    by apply two_labels_count.
  - destruct H as (Hmp & H).
    assert ((status_code r =? 200) = false) as ->.
    { apply Z.eqb_neq. intros Hr. apply Hst in Hr as [p Hp]. discriminate. }
    split; [done|]. split.
    + intros Hl. destruct H as [(_ & -> & _)|(Hl' & _)]; congruence.
    + rewrite Hmp. intros Htwo. split; [done|lia].
Qed.

Lemma router_spec clk req w r w' :
  router clk req w = (r, w') ->
  request_count w' = request_count w /\ step_ok req w r w'.
Proof.
  destruct req as [| | | | |[d|]|[d|]|].
  1-5,7,9-10:
    (run_router; try destruct (model_loaded w); simpl;
     intros [= <- <-]; (split; [done|]); by apply step_ok_unchanged).
  - unfold router, respond, ok200, bind, ret.
    destruct (predict_income clk d w) as [[p|e] w1] eqn:E; intros Hr.
    + injection Hr as <- <-. split; [by apply predict_income_inv in E as (_&?&_)|].
      eapply step_ok_prediction; [done|exact E|]. simpl. split; eauto.
    + pose proof E as E'.
      apply predict_income_inv in E' as (_ & Hrc & _ & [(_&_&->)|(_&msg&->)]);
        injection Hr as <- <-; (split; [done|]);
        (eapply step_ok_prediction; [done|exact E|]);
        simpl; (split; [done|by intros [? ?]]).
  - unfold router, respond, legacy_inference.
    destruct (predict_income clk d w) as [[p|e] w1] eqn:E; intros Hr.
    + injection Hr as <- <-. split; [by apply predict_income_inv in E as (_&?&_)|].
      eapply step_ok_prediction; [done|exact E|]. simpl. split; eauto.
    + pose proof E as E'.
      apply predict_income_inv in E' as (_ & Hrc & _ & [(_&_&->)|(_&msg&->)]);
        injection Hr as <- <-; (split; [done|]);
        (eapply step_ok_prediction; [done|exact E|]);
        simpl; (split; [done|by intros [? ?]]).
Qed.

Lemma app_spec clk req w r w' :
  app clk req w = (r, w') ->
  request_count w' = request_count w + 1 /\ step_ok req w r w'.
Proof.
  unfold app, log_requests. intros E.
  apply router_spec in E as (Hrc & Hsa & Hwork & Hsum). simpl in *.
  split; [done|]. split; [exact Hsa|]. split; [exact Hwork|exact Hsum].
Qed.

(** *** Sequences of requests *)

Lemma count_cons {A} (p : A -> bool) (x : A) (l : list A) :
  count p (x :: l) = (if p x then 1 else 0) + count p l.
Proof.
  unfold count. rewrite filter_cons.
  destruct (decide (p x = true)) as [->|Hn]; simpl length.
  - lia.
  - destruct (p x); [done|lia].
Qed.

Lemma count_disjoint {A} (p q : A -> bool) (l : list A) :
  (forall x, p x = true -> q x = false) ->
  count p l + count q l <= Z.of_nat (length l).
Proof.
  intros Hpq. induction l as [|x l IH]; [done|].
  rewrite !count_cons. simpl length.
  specialize (Hpq x).
  destruct (p x), (q x); first [lia | by specialize (Hpq eq_refl)].
Qed.

Lemma serve_cons clk req rest w :
  serve ((clk, req) :: rest) w =
    (((req, (app clk req w).1) :: (serve rest (app clk req w).2).1),
     (serve rest (app clk req w).2).2).
Proof.
  simpl. destruct (app clk req w) as [r w1]; simpl.
  by destruct (serve rest w1).
Qed.

Lemma serve_spec reqs w :
  same_artifacts w (serve reqs w).2 /\
  request_count (serve reqs w).2 = request_count w + Z.of_nat (length reqs) /\
  length (serve reqs w).1 = length reqs /\
  (model_loaded w = false -> work (serve reqs w).2 = work w) /\
  (two_labels (model_predictions w) ->
   two_labels (model_predictions (serve reqs w).2) /\
   sum_values (model_predictions (serve reqs w).2) =
     sum_values (model_predictions w) +
     count successful_prediction (serve reqs w).1).
Proof.
  revert w. induction reqs as [|[clk req] rest IH]; intros w.
  - simpl. repeat split; auto; try lia. unfold count; simpl; lia.
  - rewrite serve_cons; simpl fst; simpl snd.
    destruct (app clk req w) as [r w1] eqn:E.
    apply app_spec in E as (Hrc & Hsa & Hwork & Hsum).
    destruct (IH w1) as (IHsa & IHrc & IHlen & IHwork & IHsum).
    simpl fst; simpl snd.
    split; [by etrans|].
    split; [rewrite IHrc, Hrc; simpl length; lia|].
    split; [simpl; by rewrite IHlen|].
    split.
    + intros Hl. rewrite IHwork; [by apply Hwork|].
      destruct Hsa as (-> & _). done.
    + intros Htwo. destruct (Hsum Htwo) as (Htwo1 & Hs1).
      destruct (IHsum Htwo1) as (Htwo2 & Hs2).
      split; [done|]. rewrite Hs2, Hs1, count_cons. lia.
Qed.

Lemma startup_spec now :
  request_count (startup now) = 0 /\
  model_predictions (startup now) = <[">50K" := 0]> (<["<=50K" := 0]> ∅) /\
  work (startup now) = [] /\
  start_time (startup now) = now.
Proof.
  unfold startup.
  destruct (load_model encoder_path); [destruct (load_model model_path)|]; done.
Qed.

(** C1. From start-up, after any sequence of handled requests of which K are
    successful predictions and M are failed requests, [request_count] is the
    number of requests handled, hence at least K + M, and the values of
    [model_predictions] sum to exactly K. *)
Theorem counters_after_requests (now : Q) (reqs : list (Clock * Request)) :
  let K := count successful_prediction (serve reqs (startup now)).1 in
  let M := count failed_request (serve reqs (startup now)).1 in
  request_count (serve reqs (startup now)).2 = Z.of_nat (length reqs) /\
  K + M <= request_count (serve reqs (startup now)).2 /\
  sum_values (model_predictions (serve reqs (startup now)).2) = K.
Proof.
  intros K M.
  destruct (serve_spec reqs (startup now)) as (_ & Hrc & Hlen & _ & Hsum).
  destruct (startup_spec now) as (H0 & Hmp & _).
  rewrite H0 in Hrc. split; [lia|]. split.
  - rewrite Hrc, <- Hlen. simpl. apply count_disjoint.
    intros [req r]. unfold successful_prediction, failed_request; simpl.
    intros [_ ->]%andb_true_iff. done.
  - destruct Hsum as (_ & ->); [rewrite Hmp; by eexists _, _|].
    rewrite Hmp, sum_values_two_labels. lia.
Qed.

(** *** Confidence *)

Lemma Qmax_cases (x y : Q) :
  (Qmax x y = x /\ (y <= x)%Q) \/ (Qmax x y = y /\ (x <= y)%Q).
Proof.
  unfold Qmax, GenericMinMax.gmax.
  destruct (x ?= y)%Q eqn:E.
  - left. split; [done|]. apply Qeq_alt in E. rewrite E. apply Qle_refl.
  - right. split; [done|]. apply Qlt_alt in E. by apply Qlt_le_weak.
  - left. split; [done|]. apply Qgt_alt in E. by apply Qlt_le_weak.
Qed.

Lemma foldl_Qmax_spec (xs : list Q) (x : Q) :
  foldl Qmax x xs ∈ x :: xs /\
  forall p, p ∈ x :: xs -> (p <= foldl Qmax x xs)%Q.
Proof.
  revert x. induction xs as [|y xs IH]; intros x; simpl.
  - split; [by apply list_elem_of_singleton|].
    intros p ->%list_elem_of_singleton. apply Qle_refl.
  - destruct (IH (Qmax x y)) as (Hin & Hub). split.
    + clear Hub. revert Hin. generalize (foldl Qmax (Qmax x y) xs) as F.
      intros F. rewrite !elem_of_cons.
      destruct (Qmax_cases x y) as [(-> & _)|(-> & _)]; tauto.
    + intros p Hp.
      assert (p <= Qmax x y \/ p ∈ xs)%Q as [Hle|Hxs].
      { apply elem_of_cons in Hp as [->|Hp].
        - left. destruct (Qmax_cases x y) as [(-> & _)|(-> & ?)];
            [apply Qle_refl|done].
        - apply elem_of_cons in Hp as [->|Hp]; [|by right].
          left. destruct (Qmax_cases x y) as [(-> & ?)|(-> & _)];
            [done|apply Qle_refl]. }
      * eapply Qle_trans; [exact Hle|]. apply Hub, elem_of_cons. by left.
      * apply Hub, elem_of_cons. by right.
Qed.

(** [np.max] returns an entry of the array that no entry exceeds. *)
Lemma np_max_spec (P : list (list Q)) (c : Q) :
  np_max P = Ok c ->
  c ∈ concat P /\ forall p, p ∈ concat P -> (p <= c)%Q.
Proof.
  unfold np_max. destruct (concat P) as [|x xs]; [done|].
  intros [= <-]. apply foldl_Qmax_spec.
Qed.

Lemma np_max_nonempty (P : list (list Q)) :
  concat P <> [] -> exists c, np_max P = Ok c.
Proof. unfold np_max. destruct (concat P); [done|eauto]. Qed.

(** Every answer of [predict_income] carries a key of [model_predictions]
    as label, and as confidence the largest class probability the model gave
    for the record. *)
Lemma predict_income_answer clk d w p w' :
  two_labels (model_predictions w) ->
  predict_income clk d w = (Ok p, w') ->
  (prediction p = ">50K" \/ prediction p = "<=50K") /\
  exists mdl X P,
    model w = Some mdl /\
    process_data d cat_features false (encoder w) = Ok X /\
    predict_proba mdl X = Ok P /\
    np_max P = Ok (confidence p).
Proof.
  intros Htwo E.
  apply predict_income_inv in E as (_ & _ & _ & (X & P & y & HX & HP & _ & _ & Hc)
                                    & n & Hn & _).
  split; [by apply (two_labels_key _ _ Htwo)|].
  unfold model_predict_proba in HP.
  destruct (model w) as [mdl|]; [|done]. by exists mdl, X, P.
Qed.

(** C2. With model and encoder loaded, for a record that the encoder and the
    model accept (class probabilities in [0,1], a prediction that
    [apply_label] names with one of the two labels), [predict_income] answers
    with that label, one of ">50K" and "<=50K", and with a confidence that is
    the maximum of the class probabilities and lies in [0,1]. *)
Theorem predict_label_and_confidence
    (clk : Clock) (d : Data) (w : World) (enc mdl : Artifact)
    (X : Matrix) (P : list (list Q)) (y : Prediction) (l : string) :
  model_loaded w = true ->
  encoder w = Some enc ->
  model w = Some mdl ->
  two_labels (model_predictions w) ->
  process_data d cat_features false (Some enc) = Ok X ->
  predict_proba mdl X = Ok P ->
  inference (Some mdl) X = Ok y ->
  apply_label y = Ok (PyStr l) ->
  l = ">50K" \/ l = "<=50K" ->
  concat P <> [] ->
  (forall p, p ∈ concat P -> (0 <= p <= 1)%Q) ->
  exists r w',
    predict_income clk d w = (Ok r, w') /\
    prediction r = l /\
    (prediction r = ">50K" \/ prediction r = "<=50K") /\
    np_max P = Ok (confidence r) /\
    confidence r ∈ concat P /\
    (forall p, p ∈ concat P -> (p <= confidence r)%Q) /\
    (0 <= confidence r <= 1)%Q.
Proof.
  intros Hl Henc Hmdl Htwo HX HP Hy Hlab Hlabel Hne Hprob.
  destruct (np_max_nonempty P Hne) as [c Hc].
  destruct (np_max_spec P c Hc) as (Hin & Hub).
  apply (two_labels_key _ _ Htwo) in Hlabel as Hkey. destruct Hkey as [n Hn].
  destruct (predict_income_ok clk d w l c n Hl) as (w' & E & _); [|done|].
  { exists X, P, y. rewrite Henc, Hmdl. simpl. done. }
  eexists _, w'. split; [exact E|]. simpl.
  repeat split; auto; by apply Hprob.
Qed.

(** *** Health and availability *)

Lemma startup_failed now e :
  load_model encoder_path = Raise e \/ load_model model_path = Raise e ->
  model_loaded (startup now) = false.
Proof.
  unfold startup. intros [H|H]; rewrite H; [done|].
  by destruct (load_model encoder_path).
Qed.

Lemma app_health clk w :
  app clk GET_health w =
    ({| status_code := 200;
        body := B_health
          {| h_status := if model_loaded w then "healthy" else "unhealthy";
             h_timestamp := utcnow_isoformat clk ++ "Z";
             h_model_loaded := model_loaded w;
             h_version := "1.0.0";
             h_uptime_seconds := (time_time clk - start_time w)%Q |} |},
     set_request_count (request_count w + 1) w).
Proof. reflexivity. Qed.

Lemma app_metrics clk w :
  app clk GET_metrics w =
    ({| status_code := 200;
        body := B_metrics
          {| m_model_performance :=
               [("precision", 7369 # 10000); ("recall", 6294 # 10000);
                ("f1_score", 6789 # 10000)]%Q;
             m_request_count := request_count w + 1;
             m_prediction_distribution := model_predictions w;
             m_uptime_seconds := (time_time clk - start_time w)%Q;
             m_last_updated := utcnow_isoformat clk ++ "Z" |} |},
     set_request_count (request_count w + 1) w).
Proof. reflexivity. Qed.

Lemma app_predict_unloaded clk d w :
  model_loaded w = false ->
  app clk (POST_predict (Some d)) w =
    (JSONResponse 503 [("detail", "Model not available")],
     set_request_count (request_count w + 1) w).
Proof.
  intros Hl. unfold app, log_requests, router, respond, ok200, bind.
  by rewrite predict_income_unloaded.
Qed.

(** C3. When loading either artifact fails at start-up, then after any
    requests [GET /v1/health] reports [model_loaded = false] and
    [POST /v1/predict] answers 503 and no call into the encoding and
    inference pipeline has been made. *)
Theorem unavailable_after_failed_load
    (now : Q) (e : Exception) (reqs : list (Clock * Request))
    (clk : Clock) (d : Data) :
  load_model encoder_path = Raise e \/ load_model model_path = Raise e ->
  let w := (serve reqs (startup now)).2 in
  (exists h,
     (app clk GET_health w).1 = {| status_code := 200; body := B_health h |} /\
     h_model_loaded h = false /\ h_status h = "unhealthy") /\
  (app clk (POST_predict (Some d)) w).1 =
    JSONResponse 503 [("detail", "Model not available")] /\
  work (app clk (POST_predict (Some d)) w).2 = [].
Proof.
  intros Hfail w.
  pose proof (startup_failed now e Hfail) as H0.
  destruct (serve_spec reqs (startup now)) as ((Hl & _) & _ & _ & Hwork & _).
  fold w in Hl, Hwork. rewrite H0 in Hl. specialize (Hwork H0).
  destruct (startup_spec now) as (_ & _ & Hw0 & _). rewrite Hw0 in Hwork.
  split; [|split].
  - rewrite app_health. eexists. split; [reflexivity|]. simpl. by rewrite Hl.
  - by rewrite app_predict_unloaded.
  - by rewrite app_predict_unloaded.
Qed.

(** C5. No request changes [model_loaded]: after any sequence of requests,
    failed predictions included, the flag is the one set at start-up, and
    [GET /v1/health] answers 200 with that flag and the status it implies. *)
Theorem health_state_fixed
    (w0 : World) (reqs : list (Clock * Request)) (clk : Clock) (req : Request) :
  let w := (serve reqs w0).2 in
  model_loaded w = model_loaded w0 /\
  model_loaded (app clk req w).2 = model_loaded w0 /\
  (app clk GET_health w).1 =
    {| status_code := 200;
       body := B_health
         {| h_status := if model_loaded w0 then "healthy" else "unhealthy";
            h_timestamp := utcnow_isoformat clk ++ "Z";
            h_model_loaded := model_loaded w0;
            h_version := "1.0.0";
            h_uptime_seconds := (time_time clk - start_time w0)%Q |} |}.
Proof.
  intros w.
  destruct (serve_spec reqs w0) as ((Hl & _ & _ & Hst) & _). fold w in Hl, Hst.
  split; [done|]. split.
  - destruct (app clk req w) as [r w'] eqn:E.
    apply app_spec in E as (_ & (Hl' & _) & _). simpl. congruence.
  - rewrite app_health. simpl. by rewrite Hl, Hst.
Qed.

(** C10. The [request_count] that [GET /v1/metrics] returns counts the
    metrics request itself: after [n] requests completed since start-up it is
    [n + 1]. *)
Theorem metrics_counts_itself
    (now : Q) (reqs : list (Clock * Request)) (clk : Clock) :
  let w := (serve reqs (startup now)).2 in
  exists m,
    (app clk GET_metrics w).1 = {| status_code := 200; body := B_metrics m |} /\
    m_request_count m = request_count w + 1 /\
    m_request_count m = Z.of_nat (length reqs) + 1 /\
    Z.of_nat (length reqs) < m_request_count m.
Proof.
  intros w. rewrite app_metrics. eexists. split; [reflexivity|]. simpl.
  destruct (serve_spec reqs (startup now)) as (_ & Hrc & _).
  destruct (startup_spec now) as (H0 & _).
  fold w in Hrc. rewrite H0 in Hrc. lia.
Qed.

(** *** Determinism and the legacy route *)

Lemma predict_income_deterministic clk1 clk2 d w1 w2 :
  same_inputs w1 w2 ->
  same_result (predict_income clk1 d w1).1 (predict_income clk2 d w2).1.
Proof.
  intros ((Hl & He & Hm & _) & Hkeys). run_handler.
  rewrite Hl.
  destruct (model_loaded w1); simpl; [|done].
  rewrite He, Hm.
  destruct (process_data _ _ _ _) as [X|e]; simpl; [|done].
  destruct (model_predict_proba _ _) as [P|e]; simpl; [|done].
  destruct (inference _ _) as [y|e]; simpl; [|done].
  destruct (apply_label _) as [lab|e]; simpl; [|done].
  destruct (np_max _) as [c|e]; simpl; [|done].
  destruct lab as [| | | |l|]; simpl; try done.
  specialize (Hkeys l).
  destruct (model_predictions w1 !! l) as [n1|],
           (model_predictions w2 !! l) as [n2|]; simpl; try done.
  - destruct Hkeys as [H _]. by destruct H.
  - destruct Hkeys as [_ H]. by destruct H.
Qed.

Lemma same_inputs_two_labels w1 w2 :
  same_artifacts w1 w2 ->
  two_labels (model_predictions w1) -> two_labels (model_predictions w2) ->
  same_inputs w1 w2.
Proof.
  intros Hsa H1 H2. split; [done|]. intros l.
  by rewrite (two_labels_key _ _ H1), (two_labels_key _ _ H2).
Qed.

Lemma same_inputs_request_count n1 n2 w1 w2 :
  same_inputs w1 w2 ->
  same_inputs (set_request_count n1 w1) (set_request_count n2 w2).
Proof. by intros (? & ?). Qed.

Lemma app_predict_outcome clk1 clk2 d w1 w2 :
  same_inputs w1 w2 ->
  outcome (app clk1 (POST_predict (Some d)) w1).1 =
  outcome (app clk2 (POST_predict (Some d)) w2).1.
Proof.
  intros H.
  apply (same_inputs_request_count (request_count w1 + 1)
           (request_count w2 + 1)) in H.
  apply (predict_income_deterministic clk1 clk2 d) in H.
  unfold app, log_requests, router, respond, ok200, bind, ret.
  destruct (predict_income clk1 d _) as [[p1|e1] ?],
           (predict_income clk2 d _) as [[p2|e2] ?]; simpl in H; try done.
  - destruct H as (Hp & Hc). unfold outcome, predicted; simpl. by rewrite Hp, Hc.
  - subst e2. by destruct e1.
Qed.

(** C6. With the artifacts loaded at start-up fixed, and whatever requests
    came before, every one of any number of [POST /v1/predict] calls with the
    same record has the same status, label and confidence as the first. *)
Theorem prediction_deterministic
    (now : Q) (prior : list (Clock * Request)) (d : Data)
    (clk : Clock) (clks : list Clock) :
  let w := (serve prior (startup now)).2 in
  Forall (fun e => outcome e.2 = outcome (app clk (POST_predict (Some d)) w).1)
         (serve (map (fun c => (c, POST_predict (Some d))) clks) w).1.
Proof.
  intros w.
  assert (two_labels (model_predictions w)) as Htwo.
  { destruct (serve_spec prior (startup now)) as (_ & _ & _ & _ & H).
    destruct (startup_spec now) as (_ & Hmp & _).
    apply H. rewrite Hmp. by eexists _, _. }
  assert (forall w', same_artifacts w w' ->
            two_labels (model_predictions w') ->
            Forall (fun e => outcome e.2 =
                             outcome (app clk (POST_predict (Some d)) w).1)
              (serve (map (fun c => (c, POST_predict (Some d))) clks) w').1)
    as Hall; [|by apply Hall].
  induction clks as [|c clks IH]; intros w' Hsa Htwo'; [by constructor|].
  simpl map. rewrite serve_cons.
  pose proof (app_predict_outcome c clk d w' w) as Hout.
  destruct (app c (POST_predict (Some d)) w') as [r w''] eqn:E.
  apply app_spec in E as (_ & Hsa' & _ & Hsum).
  constructor.
  - apply Hout. apply same_inputs_two_labels; [|done|done].
    destruct Hsa as (?&?&?&?). by repeat split.
  - apply IH; [by etrans|by apply Hsum].
Qed.

(** The legacy route in terms of [/v1/predict] on the same world: both
    succeed with the same label, or both fail with the same status and
    detail. *)
Lemma app_legacy clk1 clk2 d w :
  (exists p,
     (app clk1 (POST_predict (Some d)) w).1 =
       {| status_code := 200; body := B_prediction p |} /\
     (app clk2 (POST_data (Some d)) w).1 =
       JSONResponse 200 [("result", prediction p)]) \/
  (exists code detail,
     (code = 503 \/ code = 500) /\
     (app clk1 (POST_predict (Some d)) w).1 =
       JSONResponse code [("detail", detail)] /\
     (app clk2 (POST_data (Some d)) w).1 =
       JSONResponse code [("error", detail)]).
Proof.
  pose (w1 := set_request_count (request_count w + 1) w).
  assert (same_inputs w1 w1) as H by done.
  apply (predict_income_deterministic clk1 clk2 d) in H.
  unfold app, log_requests, router, respond, ok200, legacy_inference, bind, ret.
  fold w1.
  destruct (predict_income clk1 d w1) as [[p1|e1] w1'] eqn:E1,
           (predict_income clk2 d w1) as [[p2|e2] w2'] eqn:E2;
    simpl in H; try done.
  - destruct H as (Hp & _). left. exists p1. simpl. by rewrite Hp.
  - subst e2. right.
    apply predict_income_inv in E1 as (_ & _ & _ & [(_&_&->)|(_&msg&->)]);
      simpl; eauto 10.
Qed.

(** The globals that a prediction leaves do not depend on the clock. *)
Lemma predict_income_world clk1 clk2 d w :
  (predict_income clk1 d w).2 = (predict_income clk2 d w).2.
Proof.
  run_handler.
  destruct (model_loaded w); simpl; [|done].
  destruct (process_data _ _ _ _) as [X|e]; simpl; [|done].
  destruct (model_predict_proba _ _) as [P|e]; simpl; [|done].
  destruct (inference _ _) as [y|e]; simpl; [|done].
  destruct (apply_label _) as [lab|e]; simpl; [|done].
  destruct (np_max _) as [c|e]; simpl; [|done].
  destruct lab as [| | | |l|]; simpl; try done.
  by destruct (model_predictions w !! l).
Qed.

Lemma app_legacy_world clk1 clk2 d w :
  (app clk2 (POST_data (Some d)) w).2 = (app clk1 (POST_predict (Some d)) w).2.
Proof.
  unfold app, log_requests, router, respond, ok200, legacy_inference, bind, ret.
  pose proof (predict_income_world clk1 clk2 d
                (set_request_count (request_count w + 1) w)) as H.
  destruct (predict_income clk1 d _) as [[p1|e1] w1],
           (predict_income clk2 d _) as [[p2|e2] w2]; simpl in H; subst w2.
  - done.
  - by destruct e2.
  - by destruct e1.
  - by destruct e1, e2.
Qed.

(** C4. Whenever [POST /v1/predict] answers a request body with a label,
    [POST /data/] answers the same body, in the same state of the service,
    with status 200 and the body [{"result": label}] for that very label, and
    leaves the service in the state [POST /v1/predict] leaves it in. *)
Theorem legacy_returns_predict_label
    (w : World) (clk1 clk2 : Clock) (d : Data) (p : PredictionResponse) :
  (app clk1 (POST_predict (Some d)) w).1 =
    {| status_code := 200; body := B_prediction p |} ->
  (app clk2 (POST_data (Some d)) w).1 =
    JSONResponse 200 [("result", prediction p)] /\
  (app clk2 (POST_data (Some d)) w).2 = (app clk1 (POST_predict (Some d)) w).2.
Proof.
  intros H. split; [|apply app_legacy_world].
  destruct (app_legacy clk1 clk2 d w) as [(p' & H1 & H2)|(c & m & _ & H1 & _)];
    rewrite H in H1.
  - by injection H1 as <-.
  - discriminate.
Qed.

(** C9. When [POST /v1/predict] fails for a body, with status [code] and the
    body [{"detail": detail}], then [code] is 503 or 500 and [POST /data/]
    answers the same body with the same status and the body
    [{"error": detail}]. *)
Theorem legacy_error_shape
    (w : World) (clk1 clk2 : Clock) (d : Data) :
  status_code (app clk1 (POST_predict (Some d)) w).1 <> 200 ->
  exists code detail,
    (app clk1 (POST_predict (Some d)) w).1 =
      JSONResponse code [("detail", detail)] /\
    (code = 503 \/ code = 500) /\
    (app clk2 (POST_data (Some d)) w).1 = JSONResponse code [("error", detail)].
Proof.
  intros Hne.
  destruct (app_legacy clk1 clk2 d w) as [(p & H1 & _)|(c & m & Hc & H1 & H2)].
  - by rewrite H1 in Hne.
  - by exists c, m.
Qed.

End ServiceProperties.

(** * Properties of the monitoring client *)

Section MonitorProperties.
Import Monitor.

Lemma check_prediction_performance_keys net :
  (exists s, check_prediction_performance net !! "status" = Some (PyStr s)) /\
  (check_prediction_performance net !! "response_time" = Some PyNone \/
   exists q, check_prediction_performance net !! "response_time" = Some (PyFloat q)).
Proof.
  destruct net as [code data t|e]; simpl; [destruct (code =? 200)|];
    simplify_map_eq; eauto.
Qed.

Lemma count_success_total nets :
  exists n, count_success (map check_prediction_performance nets) = Ok n.
Proof.
  induction nets as [|net nets [n IH]]; simpl; [eauto|].
  destruct (check_prediction_performance_keys net) as ([s Hs] & _).
  unfold getitem. rewrite Hs, IH. eauto.
Qed.

Lemma response_times_total nets :
  exists ts, response_times (map check_prediction_performance nets) = Ok ts.
Proof.
  induction nets as [|net nets [ts IH]]; simpl; [eauto|].
  destruct (check_prediction_performance_keys net) as (_ & [Ht|[q Ht]]);
    unfold dict_get, getitem; rewrite Ht; simpl; rewrite ?IH; eauto.
Qed.

(** The load test of a cycle always produces its statistics, with a
    success rate that is a number. *)
Lemma run_load_test_total nets t :
  exists lt rate,
    run_load_test 5 nets t = Ok lt /\ lt !! "success_rate" = Some (PyFloat rate).
Proof.
  unfold run_load_test.
  destruct (count_success_total nets) as [n ->].
  destruct (response_times_total nets) as [ts ->].
  simpl. eexists _, _. split; [reflexivity|]. by simplify_map_eq.
Qed.

Lemma slice_last_length {A} (n : nat) (l : list A) :
  length (slice_last n l) = (length l `min` n)%nat.
Proof. unfold slice_last. rewrite length_drop. lia. Qed.

Lemma slice_last_suffix {A} (n : nat) (l : list A) :
  l = (take (length l - n) l ++ slice_last n l)%list.
Proof. unfold slice_last. by rewrite take_drop. Qed.

(** C8. Every collection cycle produces its metrics and leaves a history of
    at most 100 entries: the history it found, followed by the new entry,
    without the oldest entries beyond the last 100. *)
Theorem history_bounded_fifo (c : Cycle) (m : APIMonitor) :
  exists metrics discarded,
    (collect_metrics c m).1 = Ok metrics /\
    (metrics_history m ++ [metrics])%list =
      (discarded ++ metrics_history (collect_metrics c m).2)%list /\
    (length (metrics_history (collect_metrics c m).2) <= 100)%nat /\
    length (metrics_history (collect_metrics c m).2) =
      ((length (metrics_history m) + 1) `min` 100)%nat.
Proof.
  unfold collect_metrics.
  destruct (run_load_test_total (c_load_test c) (c_load_test_time c))
    as (lt & rate & -> & _).
  set (metrics := {| timestamp := c_timestamp c; load_test := lt |}).
  set (h := (metrics_history m ++ [metrics])%list).
  assert (length h = (length (metrics_history m) + 1)%nat) as Hlen
    by (unfold h; rewrite length_app; simpl; lia).
  exists metrics. simpl.
  destruct (100 <? length h)%nat eqn:Hcmp.
  - apply Nat.ltb_lt in Hcmp.
    exists (take (length h - 100) h). split; [done|].
    split; [apply slice_last_suffix|]. rewrite slice_last_length. lia.
  - apply Nat.ltb_ge in Hcmp.
    exists []. split; [done|]. split; [done|]. lia.
Qed.

(** *** Alerts *)







(** C7 (the code departs from it). The service is unreachable for the health
    check of the first cycle: the alert check raises a [TypeError] that leaves
    [start_monitoring], which saves the one entry collected and stops; the
    second cycle, with the service back, never runs. *)
Theorem monitor_stops_on_failed_health_call :
  let '(exit, m, completed) :=
    start_monitoring
      [Fixtures.cycle_with Fixtures.unreachable;
       Fixtures.cycle_with Fixtures.answering]
      (init "http://localhost:8000" 60) in
  exit = Propagated (TypeError
           "'>' not supported between instances of 'NoneType' and 'float'") /\
  completed = 0%nat /\
  running m = false /\
  length (metrics_history m) = 1%nat /\
  warnings m = [].
Proof. vm_compute. repeat split. Qed.

End MonitorProperties.

(** * The theorems at concrete artifacts and requests *)

Section Examples.
Import Fixtures.

Lemma predict_label_and_confidence_witness :
  exists r w',
    predict_income (ml := threshold_ml) noon sample service_up = (Ok r, w') /\
    prediction r = "<=50K" /\
    (prediction r = ">50K" \/ prediction r = "<=50K") /\
    np_max [[9 # 10; 1 # 10]]%Q = Ok (confidence r) /\
    confidence r ∈ concat [[9 # 10; 1 # 10]]%Q /\
    (forall p, p ∈ concat [[9 # 10; 1 # 10]]%Q -> (p <= confidence r)%Q) /\
    (0 <= confidence r <= 1)%Q.
Proof.
  apply (predict_label_and_confidence (ml := threshold_ml)
           noon sample service_up tt tt 0 [[9 # 10; 1 # 10]]%Q 0 "<=50K").
  - reflexivity.
  - reflexivity.
  - reflexivity.
  - exists 0, 0. reflexivity.
  - reflexivity.
  - reflexivity.
  - reflexivity.
  - reflexivity.
  - right. reflexivity.
  - discriminate.
  - intros p Hp. simpl in Hp.
    apply elem_of_cons in Hp as [->|Hp]; [by vm_compute|].
    apply elem_of_cons in Hp as [->|Hp]; [by vm_compute|].
    by apply not_elem_of_nil in Hp.
Defined.

Lemma unavailable_after_failed_load_witness :
  let w := (serve (ml := missing_ml)
              [(noon, POST_predict (Some sample)); (noon, GET_root)] service_down).2 in
  (exists h,
     (app noon GET_health w).1 = {| status_code := 200; body := B_health h |} /\
     h_model_loaded h = false /\ h_status h = "unhealthy") /\
  (app noon (POST_predict (Some sample)) w).1 =
    JSONResponse 503 [("detail", "Model not available")] /\
  work (app noon (POST_predict (Some sample)) w).2 = [].
Proof.
  apply (unavailable_after_failed_load (ml := missing_ml) 0
           (RuntimeError "[Errno 2] No such file or directory")).
  left. reflexivity.
Defined.

Lemma legacy_returns_predict_label_witness :
  (app (ml := threshold_ml) noon (POST_data (Some sample)) service_up).1 =
    JSONResponse 200 [("result", "<=50K")] /\
  (app (ml := threshold_ml) noon (POST_data (Some sample)) service_up).2 =
    (app (ml := threshold_ml) noon (POST_predict (Some sample)) service_up).2.
Proof.
  apply (legacy_returns_predict_label (ml := threshold_ml)
           service_up noon noon sample
           {| prediction := "<=50K"; confidence := 9 # 10;
              model_version := "v1.0.0";
              timestamp := "2024-01-01T12:00:00Z" |}).
  vm_compute. reflexivity.
Defined.

Lemma legacy_error_shape_witness :
  exists code detail,
    (app (ml := missing_ml) noon (POST_predict (Some sample)) service_down).1 =
      JSONResponse code [("detail", detail)] /\
    (code = 503 \/ code = 500) /\
    (app (ml := missing_ml) noon (POST_data (Some sample)) service_down).1 =
      JSONResponse code [("error", detail)].
Proof.
  apply (legacy_error_shape (ml := missing_ml) service_down noon noon sample).
  vm_compute. discriminate.
Defined.

(** Five requests, two of them successful predictions and two failed. *)
Example counters_after_five_requests :
  let '(log, w) :=
    serve (ml := threshold_ml)
      [(noon, POST_predict (Some sample)); (noon, POST_predict None);
       (noon, GET_health); (noon, POST_data (Some sample)); (noon, Unrouted)]
      service_up in
  count successful_prediction log = 2 /\
  count failed_request log = 2 /\
  request_count w = 5 /\
  sum_values (model_predictions w) = 2.
Proof. vm_compute. repeat split. Qed.

(** Five predictions for the same record. *)
Example five_identical_predictions :
  map (fun e => outcome e.2)
    (serve (ml := threshold_ml)
       (map (fun c => (c, POST_predict (Some sample)))
            [noon; noon; noon; noon; noon]) service_up).1 =
  replicate 5 (200, Some ("<=50K", 9 # 10)).
Proof. vm_compute. reflexivity. Qed.

End Examples.

(** * Further properties of the service *)

Section MoreServiceProperties.
Context `{ml : ML}.
Import Wire.

Ltac run_predict :=
  unfold predict_income, count_prediction, try_except, bind, get, modify,
    call, raise, ret; simpl.

Ltac run_app :=
  unfold app, log_requests, router, respond, ok200, legacy_inference,
    health_check, get_metrics, get_root, get_model_info, unprocessable,
    JSONResponse, bind, get, raise, ret; simpl.

(** The calls a prediction adds to the trace. *)
Lemma predict_income_work clk d w :
  exists calls,
    work (predict_income clk d w).2 = (work w ++ calls)%list /\
    calls `prefix_of` full_pipeline /\
    (model_loaded w = false -> calls = []) /\
    (forall p, (predict_income clk d w).1 = Ok p -> calls = full_pipeline).
Proof.
  run_predict. unfold full_pipeline.
  destruct (model_loaded w); simpl;
    [|exists []; rewrite app_nil_r; repeat split; [apply prefix_nil|done]].
  destruct (process_data _ _ _ _) as [X|e]; simpl;
    [|exists [W_process_data]; repeat split; try done;
      by eexists [_; _; _]].
  destruct (model_predict_proba _ _) as [P|e]; simpl;
    [|exists [W_process_data; W_predict_proba]; rewrite <- !app_assoc;
      repeat split; try done; by eexists [_; _]].
  destruct (inference _ _) as [y|e]; simpl;
    [|exists [W_process_data; W_predict_proba; W_inference];
      rewrite <- !app_assoc; repeat split; try done; by eexists [_]].
  exists [W_process_data; W_predict_proba; W_inference; W_apply_label].
  destruct (apply_label _) as [lab|e]; simpl;
    [|rewrite <- !app_assoc; repeat split; done].
  destruct (np_max _) as [c|e]; simpl;
    [|rewrite <- !app_assoc; repeat split; done].
  destruct lab as [| | | |l|]; simpl;
    try (rewrite <- !app_assoc; repeat split; done).
  destruct (model_predictions w !! l); simpl;
    rewrite <- !app_assoc; repeat split; done.
Qed.

(** The three ways [predict_income] ends. *)
Lemma predict_income_result clk d w :
  (exists p, (predict_income clk d w).1 = Ok p /\ model_loaded w = true) \/
  ((predict_income clk d w).1 =
     Raise (HTTPException 503 "Model not available") /\
   model_loaded w = false) \/
  (exists msg, (predict_income clk d w).1 = Raise (HTTPException 500 msg) /\
               model_loaded w = true).
Proof.
  destruct (predict_income clk d w) as [[p|e] w'] eqn:E;
    apply predict_income_inv in E as (_ & _ & H); simpl.
  - left. exists p. by destruct H as (? & _).
  - right. destruct H as (_ & [(? & _ & ->)|(? & msg & ->)]); eauto.
Qed.

(** The two prediction routes in terms of [predict_income], run after the
    middleware has counted the request. *)
Lemma app_predict clk d w :
  app clk (POST_predict (Some d)) w =
    (match (predict_income clk d (counted w)).1 with
     | Ok p => {| status_code := 200; body := B_prediction p |}
     | Raise (HTTPException code detail) =>
         JSONResponse code [("detail", detail)]
     | Raise _ =>
         {| status_code := 500; body := B_text "Internal Server Error" |}
     end, (predict_income clk d (counted w)).2).
Proof.
  unfold app, log_requests, router, respond, ok200, bind, ret. fold (counted w).
  destruct (predict_income clk d (counted w)) as [[p|e] w']; [done|].
  by destruct e.
Qed.

Lemma app_data clk d w :
  app clk (POST_data (Some d)) w =
    (match (predict_income clk d (counted w)).1 with
     | Ok p => JSONResponse 200 [("result", prediction p)]
     | Raise (HTTPException code detail) =>
         JSONResponse code [("error", detail)]
     | Raise _ =>
         {| status_code := 500; body := B_text "Internal Server Error" |}
     end, (predict_income clk d (counted w)).2).
Proof.
  unfold app, log_requests, router, respond, legacy_inference.
  fold (counted w).
  destruct (predict_income clk d (counted w)) as [[p|e] w']; [done|].
  by destruct e.
Qed.

(** Requests to the other routes change nothing but the request count. *)
Lemma app_other clk req w :
  is_prediction_request req = false \/
  req = POST_predict None \/ req = POST_data None ->
  (app clk req w).2 = counted w.
Proof.
  intros [H|[->| ->]]; [|done|done].
  destruct req as [| | | | |[d|]|[d|]|]; try done.
  run_app. by destruct (model_loaded w).
Qed.

(** X1. A request adds to the trace of pipeline calls a prefix of
    [process_data, predict_proba, inference, apply_label]: nothing when the
    model is not loaded or the route needs no model (other routes, rejected
    bodies), all four, in this order, when a prediction is answered. *)
Theorem pipeline_calls_per_request (clk : Clock) (req : Request) (w : World) :
  exists calls,
    work (app clk req w).2 = (work w ++ calls)%list /\
    calls `prefix_of` full_pipeline /\
    (model_loaded w = false \/ needs_model req = false -> calls = []) /\
    (successful_prediction (req, (app clk req w).1) = true ->
     calls = full_pipeline).
Proof.
  assert (forall d r,
    (app clk req w).2 = (predict_income clk d (counted w)).2 ->
    (status_code r = 200 -> exists p, (predict_income clk d (counted w)).1 = Ok p) ->
    exists calls,
      work (app clk req w).2 = (work w ++ calls)%list /\
      calls `prefix_of` full_pipeline /\
      (model_loaded w = false \/ False -> calls = []) /\
      (is_prediction_request req && (status_code r =? 200) = true ->
       calls = full_pipeline)) as Hpred.
  { intros d r -> Hok.
    destruct (predict_income_work clk d (counted w)) as (calls & Hw & Hp & Hn & Hf).
    exists calls. split; [done|]. split; [done|]. split.
    - intros [Hl|[]]. by apply Hn.
    - intros [_ Hs%Z.eqb_eq]%andb_true_iff.
      destruct (Hok Hs) as [p Hp']. by apply (Hf p). }
  destruct req as [| | | | |[d|]|[d|]|];
    try (exists []; rewrite app_nil_r, app_other by auto;
         repeat split; [apply prefix_nil|done]).
  - pose proof (predict_income_result clk d (counted w)) as Hres.
    destruct (Hpred d (app clk (POST_predict (Some d)) w).1)
      as (calls & ? & ? & ? & ?).
    + by rewrite app_predict.
    + rewrite app_predict. simpl.
      destruct Hres as [(p & -> & _)|[(-> & _)|(msg & -> & _)]]; simpl; eauto;
        done.
    + exists calls. repeat split; auto. intros [?|?]; [auto|done].
  - pose proof (predict_income_result clk d (counted w)) as Hres.
    destruct (Hpred d (app clk (POST_data (Some d)) w).1)
      as (calls & ? & ? & ? & ?).
    + by rewrite app_data.
    + rewrite app_data. simpl.
      destruct Hres as [(p & -> & _)|[(-> & _)|(msg & -> & _)]]; simpl; eauto;
        done.
    + exists calls. repeat split; auto. intros [?|?]; [auto|done].
Qed.

Lemma predict_income_predictions clk d w :
  match (predict_income clk d w).1 with
  | Ok p =>
      exists n, model_predictions w !! prediction p = Some n /\
                model_predictions (predict_income clk d w).2 =
                  <[prediction p := n + 1]> (model_predictions w)
  | Raise _ =>
      model_predictions (predict_income clk d w).2 = model_predictions w
  end.
Proof.
  destruct (predict_income clk d w) as [[p|e] w'] eqn:E;
    apply predict_income_inv in E as (_ & _ & H); simpl.
  - by destruct H as (_ & _ & H).
  - by destruct H as (H & _).
Qed.

(** X2. Only an answered prediction changes [model_predictions]: it adds one
    to the entry of the label it returns and touches no other entry; every
    other request, failed predictions included, leaves the dictionary as it
    was. *)
Theorem only_answered_predictions_count
    (clk : Clock) (req : Request) (w : World) :
  if successful_prediction (req, (app clk req w).1) then
    exists l n,
      answered_label (app clk req w).1 = Some l /\
      model_predictions w !! l = Some n /\
      model_predictions (app clk req w).2 = <[l := n + 1]> (model_predictions w)
  else
    model_predictions (app clk req w).2 = model_predictions w.
Proof.
  destruct req as [| | | | |[d|]|[d|]|];
    try (rewrite app_other by auto; unfold successful_prediction; simpl;
         try destruct (model_loaded w); done).
  - rewrite app_predict. unfold successful_prediction. simpl.
    pose proof (predict_income_predictions clk d (counted w)) as H.
    destruct (predict_income_result clk d (counted w))
      as [(p & Hp & _)|[(Hp & _)|(msg & Hp & _)]]; rewrite Hp in *; simpl.
    + destruct H as (n & Hn & Hw). by exists (prediction p), n.
    + done.
    + done.
  - rewrite app_data. unfold successful_prediction. simpl.
    pose proof (predict_income_predictions clk d (counted w)) as H.
    destruct (predict_income_result clk d (counted w))
      as [(p & Hp & _)|[(Hp & _)|(msg & Hp & _)]]; rewrite Hp in *; simpl.
    + destruct H as (n & Hn & Hw). by exists (prediction p), n.
    + done.
    + done.
Qed.

(** One request keeps every key of [model_predictions] and lowers no
    count. *)
Lemma app_count_step clk req w l :
  match model_predictions w !! l,
        model_predictions (app clk req w).2 !! l with
  | Some n, Some n' => n <= n'
  | None, None => True
  | _, _ => False
  end.
Proof.
  assert (forall d,
    match model_predictions w !! l,
          model_predictions (predict_income clk d (counted w)).2 !! l with
    | Some n, Some n' => n <= n'
    | None, None => True
    | _, _ => False
    end) as Hpred.
  { intros d.
    pose proof (predict_income_predictions clk d (counted w)) as H.
    destruct (predict_income clk d (counted w)).1 as [p|e].
    - destruct H as (n & Hn & ->). simpl in Hn.
      destruct (decide (prediction p = l)) as [<-|Hne].
      + rewrite lookup_insert_eq, Hn. lia.
      + rewrite lookup_insert_ne by done. simpl.
        destruct (model_predictions w !! l); [lia|done].
    - rewrite H. simpl. destruct (model_predictions w !! l); [lia|done]. }
  destruct req as [| | | | |[d|]|[d|]|];
    try (rewrite app_other by auto; simpl;
         destruct (model_predictions w !! l); [lia|done]).
  - rewrite app_predict. apply Hpred.
  - rewrite app_data. apply Hpred.
Qed.

(** X3. Over any sequence of requests the keys of [model_predictions] stay
    the same and no count decreases. *)
Theorem counts_never_decrease
    (reqs : list (Clock * Request)) (w : World) (l : string) :
  match model_predictions w !! l,
        model_predictions (serve reqs w).2 !! l with
  | Some n, Some n' => n <= n'
  | None, None => True
  | _, _ => False
  end.
Proof.
  revert w. induction reqs as [|[clk req] rest IH]; intros w.
  - simpl. destruct (model_predictions w !! l); [lia|done].
  - rewrite serve_cons. simpl snd.
    specialize (IH (app clk req w).2).
    pose proof (app_count_step clk req w l) as H.
    destruct (model_predictions w !! l),
             (model_predictions (app clk req w).2 !! l),
             (model_predictions (serve rest (app clk req w).2).2 !! l);
      try done; lia.
Qed.


(** X5. When [process_data] raises for a record, the request is answered 500
    with the text of the exception after "Prediction failed: "; the model is
    not consulted and nothing is counted. *)
Theorem encoding_failure_is_500
    (clk : Clock) (d : Data) (w : World) (e : Exception) :
  model_loaded w = true ->
  process_data d cat_features false (encoder w) = Raise e ->
  (app clk (POST_predict (Some d)) w).1 =
    JSONResponse 500 [("detail", "Prediction failed: " ++ str_exn e)] /\
  work (app clk (POST_predict (Some d)) w).2 = (work w ++ [W_process_data])%list /\
  model_predictions (app clk (POST_predict (Some d)) w).2 = model_predictions w.
Proof.
  intros Hl HX. rewrite app_predict.
  assert (predict_income clk d (counted w) =
            (Raise (HTTPException 500 ("Prediction failed: " ++ str_exn e)),
             {| request_count := request_count w + 1;
                model_predictions := model_predictions w;
                start_time := start_time w;
                encoder := encoder w; model := model w;
                model_loaded := model_loaded w;
                work := work w ++ [W_process_data] |})) as ->.
  { unfold counted, set_request_count. run_predict.
    rewrite Hl; simpl. by rewrite HX. }
  done.
Qed.


(** X7. From start-up and after any requests, [GET /v1/model/info] answers
    503 when the model is not loaded; otherwise it lists the 14 distinct
    aliases of the fields of [Data], in the order of a request body, among
    them the categorical features the pipeline encodes, and as target classes
    exactly the keys of [model_predictions]. *)
Theorem model_info_schema
    (now : Q) (reqs : list (Clock * Request)) (clk : Clock) (d : Data) :
  let w := (serve reqs (startup now)).2 in
  if model_loaded w then
    exists i,
      (app clk GET_model_info w).1 =
        {| status_code := 200; body := B_model_info i |} /\
      features i = (data_dict d).*1 /\
      length (features i) = 14%nat /\
      NoDup (features i) /\
      cat_features ⊆ features i /\
      (forall l, l ∈ target_classes i <-> is_Some (model_predictions w !! l))
  else
    (app clk GET_model_info w).1 =
      JSONResponse 503 [("detail", "Model not loaded")].
Proof.
  intros w.
  assert (two_labels (model_predictions w)) as Htwo.
  { destruct (serve_spec reqs (startup now)) as (_ & _ & _ & _ & H).
    destruct (startup_spec now) as (_ & Hmp & _).
    apply H. rewrite Hmp. by eexists _, _. }
  run_app. destruct (model_loaded w); simpl; [|done].
  eexists. split; [reflexivity|]. simpl.
  split; [done|]. split; [done|].
  split; [by apply (bool_decide_unpack _)|].
  split; [by apply (bool_decide_unpack _)|].
  intros l. rewrite (two_labels_key _ _ Htwo).
  rewrite !elem_of_cons, elem_of_nil. tauto.
Qed.

(** X17. The uptime that [GET /v1/health] and [GET /v1/metrics] report is the
    clock reading minus the time of start-up, whatever requests were handled
    in between: no request resets the start time, and the two routes agree. *)
Theorem uptime_since_startup
    (now : Q) (reqs : list (Clock * Request)) (clk : Clock) :
  let w := (serve reqs (startup now)).2 in
  exists h m,
    (app clk GET_health w).1 = {| status_code := 200; body := B_health h |} /\
    (app clk GET_metrics w).1 = {| status_code := 200; body := B_metrics m |} /\
    h_uptime_seconds h = (time_time clk - now)%Q /\
    m_uptime_seconds m = (time_time clk - now)%Q.
Proof.
  intros w.
  destruct (serve_spec reqs (startup now)) as ((_ & _ & _ & Hst) & _).
  destruct (startup_spec now) as (_ & _ & _ & H0).
  fold w in Hst. rewrite H0 in Hst.
  rewrite app_health, app_metrics. eexists _, _.
  split; [reflexivity|]. split; [reflexivity|]. simpl. by rewrite Hst.
Qed.

End MoreServiceProperties.

(** * Further properties of the monitoring client *)

Section MoreMonitorProperties.
Import Monitor Report.

(** *** The load test *)

Lemma successes_cons net nets :
  successes (net :: nets) = (if is_200 net then 1 else 0) + successes nets.
Proof.
  unfold successes. rewrite filter_cons.
  destruct (decide (is_200 net = true)) as [->|Hn]; simpl length.
  - lia.
  - destruct (is_200 net); [done|lia].
Qed.

Lemma count_success_successes nets :
  count_success (map check_prediction_performance nets) = Ok (successes nets).
Proof.
  induction nets as [|net nets IH]; [done|].
  rewrite successes_cons. simpl. rewrite IH.
  destruct net as [code data t|e]; simpl.
  - destruct (code =? 200); unfold getitem; simplify_map_eq; simpl;
      f_equal; lia.
  - unfold getitem; simplify_map_eq. done.
Qed.

Lemma response_times_answered nets :
  response_times (map check_prediction_performance nets) =
    Ok (answered_times nets).
Proof.
  unfold answered_times.
  induction nets as [|net nets IH]; simpl; [done|].
  destruct net as [code data t|e]; simpl.
  - destruct (code =? 200); unfold dict_get, getitem; simplify_map_eq;
      by rewrite IH.
  - unfold dict_get; simplify_map_eq. by rewrite IH.
Qed.

Lemma run_load_test_5 nets total :
  run_load_test 5 nets total =
    Ok (<["total_requests" := PyInt 5]>
       (<["successful_requests" := PyInt (successes nets)]>
       (<["success_rate" := PyFloat (inject_Z (successes nets) / inject_Z 5)]>
       (<["total_time" := PyFloat total]>
       (<["avg_response_time" := stat mean (answered_times nets)]>
       (<["min_response_time" := stat minimum (answered_times nets)]>
       (<["max_response_time" := stat maximum (answered_times nets)]>
       (<["median_response_time" := stat median (answered_times nets)]>
          ∅)))))))).
Proof.
  unfold run_load_test.
  by rewrite count_success_successes, response_times_answered.
Qed.

Lemma successes_bounds nets :
  0 <= successes nets <= Z.of_nat (length nets).
Proof.
  unfold successes. pose proof (length_filter (fun net => is_200 net = true) nets).
  lia.
Qed.

(** X8. The load test of a cycle, run with five requests of which at most
    five report back, counts as successful exactly the requests answered with
    status 200 and reports their share of the five as success rate, a number
    between 0 and 1. *)
Theorem load_test_success_rate (nets : list HttpOutcome) (total : Q) :
  (length nets <= 5)%nat ->
  exists lt rate,
    run_load_test 5 nets total = Ok lt /\
    lt !! "total_requests" = Some (PyInt 5) /\
    lt !! "successful_requests" = Some (PyInt (successes nets)) /\
    lt !! "success_rate" = Some (PyFloat rate) /\
    (rate == successes nets # 5)%Q /\
    (0 <= rate <= 1)%Q.
Proof.
  intros Hlen. rewrite run_load_test_5.
  eexists _, _. split; [reflexivity|].
  do 3 (split; [by simplify_map_eq|]).
  pose proof (successes_bounds nets) as Hs.
  unfold Qdiv, Qeq, Qle; simpl. lia.
Qed.

(** *** The statistics of the load test *)

Lemma Qmin_cases (x y : Q) :
  (Qmin x y = x /\ (x <= y)%Q) \/ (Qmin x y = y /\ (y <= x)%Q).
Proof.
  unfold Qmin, GenericMinMax.gmin.
  destruct (x ?= y)%Q eqn:E.
  - left. split; [done|]. apply Qeq_alt in E. rewrite E. apply Qle_refl.
  - left. split; [done|]. apply Qlt_alt in E. by apply Qlt_le_weak.
  - right. split; [done|]. apply Qgt_alt in E. by apply Qlt_le_weak.
Qed.

Lemma foldl_Qmin_spec (xs : list Q) (x : Q) :
  foldl Qmin x xs ∈ x :: xs /\
  forall p, p ∈ x :: xs -> (foldl Qmin x xs <= p)%Q.
Proof.
  revert x. induction xs as [|y xs IH]; intros x; simpl.
  - split; [by apply list_elem_of_singleton|].
    intros p ->%list_elem_of_singleton. apply Qle_refl.
  - destruct (IH (Qmin x y)) as (Hin & Hlb). split.
    + clear Hlb. revert Hin. generalize (foldl Qmin (Qmin x y) xs) as F.
      intros F. rewrite !elem_of_cons.
      destruct (Qmin_cases x y) as [(-> & _)|(-> & _)]; tauto.
    + intros p Hp.
      assert (Qmin x y <= p \/ p ∈ xs)%Q as [Hle|Hxs].
      { apply elem_of_cons in Hp as [->|Hp].
        - left. destruct (Qmin_cases x y) as [(-> & _)|(-> & ?)];
            [apply Qle_refl|done].
        - apply elem_of_cons in Hp as [->|Hp]; [|by right].
          left. destruct (Qmin_cases x y) as [(-> & ?)|(-> & _)];
            [done|apply Qle_refl]. }
      * eapply Qle_trans; [|exact Hle]. apply Hlb, elem_of_cons. by left.
      * apply Hlb, elem_of_cons. by right.
Qed.

Lemma minimum_spec (xs : list Q) :
  xs <> [] ->
  minimum xs ∈ xs /\ forall p, p ∈ xs -> (minimum xs <= p)%Q.
Proof. destruct xs as [|x xs]; [done|]. intros _. apply foldl_Qmin_spec. Qed.

Lemma maximum_spec (xs : list Q) :
  xs <> [] ->
  maximum xs ∈ xs /\ forall p, p ∈ xs -> (p <= maximum xs)%Q.
Proof. destruct xs as [|x xs]; [done|]. intros _. apply foldl_Qmax_spec. Qed.

Lemma sum_bounds (xs : list Q) (lo hi : Q) :
  (forall p, p ∈ xs -> (lo <= p <= hi)%Q) ->
  (lo * inject_Z (Z.of_nat (length xs)) <= foldr Qplus 0 xs
   <= hi * inject_Z (Z.of_nat (length xs)))%Q.
Proof.
  induction xs as [|x xs IH]; intros H.
  - simpl. change (inject_Z (Z.of_nat 0)) with 0%Q. lra.
  - simpl length. rewrite Nat2Z.inj_succ. unfold Z.succ.
    rewrite inject_Z_plus. simpl foldr.
    destruct IH as (IH1 & IH2).
    { intros p Hp. apply H, elem_of_cons. by right. }
    destruct (H x) as (Hx1 & Hx2); [apply elem_of_cons; by left|].
    change (inject_Z 1) with 1%Q. lra.
Qed.

Lemma mean_bounds (xs : list Q) (lo hi : Q) :
  xs <> [] ->
  (forall p, p ∈ xs -> (lo <= p <= hi)%Q) ->
  (lo <= mean xs <= hi)%Q.
Proof.
  intros Hne H. destruct (sum_bounds xs lo hi H) as (H1 & H2).
  assert (0 < inject_Z (Z.of_nat (length xs)))%Q as Hn.
  { change 0%Q with (inject_Z 0). rewrite <- Zlt_Qlt.
    destruct xs; [done|]. simpl length. lia. }
  unfold mean. split.
  - by apply Qle_shift_div_l.
  - by apply Qle_shift_div_r.
Qed.

Lemma insert_sorted_elem (x y : Q) (l : list Q) :
  y ∈ insert_sorted x l <-> y = x \/ y ∈ l.
Proof.
  induction l as [|z l IH]; simpl.
  - rewrite list_elem_of_singleton, elem_of_nil. tauto.
  - destruct (Qle_bool x z); rewrite !elem_of_cons; [tauto|].
    rewrite IH. tauto.
Qed.

Lemma sorted_elem (y : Q) (l : list Q) : y ∈ sorted l <-> y ∈ l.
Proof.
  unfold sorted. induction l as [|x l IH]; simpl; [done|].
  rewrite insert_sorted_elem, elem_of_cons, IH. tauto.
Qed.

Lemma insert_sorted_length (x : Q) (l : list Q) :
  length (insert_sorted x l) = S (length l).
Proof.
  induction l as [|z l IH]; simpl; [done|].
  destruct (Qle_bool x z); simpl; [done|by rewrite IH].
Qed.

Lemma sorted_length (l : list Q) : length (sorted l) = length l.
Proof.
  unfold sorted. induction l as [|x l IH]; simpl; [done|].
  by rewrite insert_sorted_length, IH.
Qed.

Lemma nth_sorted_elem (i : nat) (l : list Q) :
  (i < length l)%nat -> nth i (sorted l) 0%Q ∈ l.
Proof.
  intros Hi. apply sorted_elem, list_elem_of_In, nth_In.
  by rewrite sorted_length.
Qed.

Lemma median_bounds (xs : list Q) (lo hi : Q) :
  xs <> [] ->
  (forall p, p ∈ xs -> (lo <= p <= hi)%Q) ->
  (lo <= median xs <= hi)%Q.
Proof.
  intros Hne H. unfold median. rewrite sorted_length.
  assert (0 < length xs)%nat as Hpos by (destruct xs; [done|simpl; lia]).
  destruct (Nat.odd (length xs)) eqn:Hodd.
  - apply H, nth_sorted_elem. apply Nat.div_lt; lia.
  - assert (2 <= length xs)%nat as H2.
    { destruct xs as [|a [|b xs]]; [done|done|simpl; lia]. }
    destruct (H (nth (length xs / 2 - 1) (sorted xs) 0%Q)) as (Ha1 & Ha2).
    { apply nth_sorted_elem.
      pose proof (Nat.div_lt (length xs) 2 Hpos ltac:(lia)). lia. }
    destruct (H (nth (length xs / 2) (sorted xs) 0%Q)) as (Hb1 & Hb2).
    { apply nth_sorted_elem. apply Nat.div_lt; lia. }
    split.
    + apply Qle_shift_div_l; [done|]. lra.
    + apply Qle_shift_div_r; [done|]. lra.
Qed.

(** X9. The response-time statistics of the load test are taken over every
    request that was answered, whatever its status code: with no answer at
    all the four statistics are [None]; otherwise they are numbers, the
    minimum and the maximum are response times of the sample, and the mean
    and the median lie between them. *)
Theorem load_test_statistics (nets : list HttpOutcome) (total : Q) :
  exists lt,
    run_load_test 5 nets total = Ok lt /\
    match answered_times nets with
    | [] =>
        lt !! "avg_response_time" = Some PyNone /\
        lt !! "min_response_time" = Some PyNone /\
        lt !! "max_response_time" = Some PyNone /\
        lt !! "median_response_time" = Some PyNone
    | _ :: _ =>
        exists lo avg med hi,
          lt !! "min_response_time" = Some (PyFloat lo) /\
          lt !! "avg_response_time" = Some (PyFloat avg) /\
          lt !! "median_response_time" = Some (PyFloat med) /\
          lt !! "max_response_time" = Some (PyFloat hi) /\
          lo ∈ answered_times nets /\
          hi ∈ answered_times nets /\
          (forall t, t ∈ answered_times nets -> (lo <= t <= hi)%Q) /\
          (lo <= avg <= hi)%Q /\
          (lo <= med <= hi)%Q
    end.
Proof.
  rewrite run_load_test_5. eexists. split; [reflexivity|].
  destruct (answered_times nets) as [|t ts] eqn:E.
  - simpl. by simplify_map_eq.
  - set (xs := t :: ts). assert (xs <> []) as Hne by done.
    destruct (minimum_spec xs Hne) as (Hlo & Hlb).
    destruct (maximum_spec xs Hne) as (Hhi & Hub).
    assert (forall p, p ∈ xs -> (minimum xs <= p <= maximum xs)%Q) as Hb
      by (intros p Hp; split; [by apply Hlb|by apply Hub]).
    exists (minimum xs), (mean xs), (median xs), (maximum xs).
    unfold stat. fold xs.
    do 4 (split; [by simplify_map_eq|]).
    split; [done|]. split; [done|]. split; [done|].
    split; [by apply mean_bounds|by apply median_bounds].
Qed.

(** *** Alerts *)

Lemma rate_is_low (n : Z) :
  negb (Qle_bool (8 # 10) (inject_Z n / inject_Z 5)) = (n <? 4).
Proof.
  unfold Qle_bool, Qdiv; simpl.
  destruct (n <? 4) eqn:E.
  - apply Z.ltb_lt in E. apply negb_true_iff, Z.leb_gt. lia.
  - apply Z.ltb_ge in E. apply negb_false_iff, Z.leb_le. lia.
Qed.

Lemma Qgt_bool (x y : Q) : negb (Qle_bool x y) = true <-> (y < x)%Q.
Proof.
  rewrite negb_true_iff, <- not_true_iff_false, Qle_bool_iff.
  split; [apply Qnot_le_lt|apply Qlt_not_le].
Qed.

(** The warnings of a cycle in which the health check and the single
    prediction are answered. *)
Lemma cycle_warnings c m hcode hdata ht pcode pdata pt :
  c_health c = Responded hcode hdata ht ->
  c_prediction c = Responded pcode pdata pt ->
  warnings (cycle c m).2 =
    (warnings m
     ++ (if hcode =? 200 then [] else [ApiHealth (PyStr "unhealthy")])
     ++ (if negb (Qle_bool ht 5) then [SlowHealthResponse (PyFloat ht)] else [])
     ++ (if negb (Qle_bool pt 2) then [SlowPredictionResponse (PyFloat pt)]
         else [])
     ++ (if successes (c_load_test c) <? 4
         then [LowSuccessRate
                 (PyFloat (inject_Z (successes (c_load_test c)) / inject_Z 5))]
         else []))%list.
Proof.
  intros Hh Hp. unfold cycle, collect_metrics.
  rewrite run_load_test_5, Hh, Hp.
  unfold check_alerts, getitem, dict_get, py_gt, py_lt.
  cbn [health prediction load_test check_health check_prediction_performance].
  destruct (hcode =? 200), (pcode =? 200); simplify_map_eq;
    cbn [format_percent number_of py_ne_str String.eqb Ascii.eqb Bool.eqb negb];
    rewrite rate_is_low;
    destruct (negb (Qle_bool ht 5)), (negb (Qle_bool pt 2)),
             (successes (c_load_test c) <? 4), (c_interrupt c);
    reflexivity.
Qed.

Ltac alert_cases Hv :=
  repeat (first [ apply elem_of_app in Hv as [Hv|Hv]
                | apply elem_of_cons in Hv as [Hv|Hv]
                | apply elem_of_nil in Hv as [] ]); try discriminate.

(** X10. In a cycle whose health check and single prediction are answered,
    the warnings logged are exactly these: a health alert when the health
    status code is not 200, a slow-health alert when the health call took
    more than 5 seconds, a slow-prediction alert when the prediction call
    took more than 2 seconds, and a low-success alert when fewer than 4 of the
    5 load-test requests were answered with 200.  The status code of the
    single prediction and the body of the health answer raise no alert. *)
Theorem alerts_of_answered_cycle
    (c : Cycle) (m : APIMonitor)
    (hcode : Z) (hdata : gmap string pyval) (ht : Q)
    (pcode : Z) (pdata : gmap string pyval) (pt : Q) :
  c_health c = Responded hcode hdata ht ->
  c_prediction c = Responded pcode pdata pt ->
  exists alerts,
    warnings (cycle c m).2 = (warnings m ++ alerts)%list /\
    ((exists s, ApiHealth s ∈ alerts) <-> hcode <> 200) /\
    ((exists v, SlowHealthResponse v ∈ alerts) <-> (5 < ht)%Q) /\
    ((exists v, SlowPredictionResponse v ∈ alerts) <-> (2 < pt)%Q) /\
    ((exists v, LowSuccessRate v ∈ alerts) <->
     successes (c_load_test c) < 4).
Proof.
  intros Hh Hp. eexists.
  split; [by apply (cycle_warnings c m hcode hdata ht pcode pdata pt)|].
  rewrite <- !Qgt_bool, <- Z.eqb_neq, <- Z.ltb_lt.
  destruct (hcode =? 200), (negb (Qle_bool ht 5)), (negb (Qle_bool pt 2)),
           (successes (c_load_test c) <? 4); simpl;
    repeat split; try (intros [v Hv]; alert_cases Hv; done);
    try done; intros _; eexists; rewrite !elem_of_cons; eauto 6.
Qed.

(** *** The loop *)

(** What a cycle leaves alone. *)
Lemma check_alerts_frame metrics m :
  running (check_alerts metrics m).2 = running m /\
  saved (check_alerts metrics m).2 = saved m /\
  metrics_history (check_alerts metrics m).2 = metrics_history m.
Proof.
  unfold check_alerts.
  match goal with
  | |- context [match ?x with Ok _ => _ | Raise _ => _ end] => by destruct x
  end.
Qed.

Lemma collect_metrics_frame c m :
  running (collect_metrics c m).2 = running m /\
  saved (collect_metrics c m).2 = saved m /\
  warnings (collect_metrics c m).2 = warnings m.
Proof. unfold collect_metrics. by rewrite run_load_test_5. Qed.

Lemma cycle_frame c m :
  running (cycle c m).2 = running m /\
  saved (cycle c m).2 = saved m /\
  metrics_history (cycle c m).2 = metrics_history (collect_metrics c m).2.
Proof.
  unfold cycle.
  destruct (collect_metrics_frame c m) as (Hr & Hs & _).
  destruct (collect_metrics c m) as [[x|e] m1]; simpl in *; [|done].
  match goal with
  | |- context [match ?x with Ok _ => _ | Raise _ => _ end] =>
      destruct x; [|done]
  end.
  destruct (check_alerts_frame x m1) as (Hr' & Hs' & Hh').
  destruct (check_alerts x m1) as [[[]|e] m2]; simpl in *;
    [destruct (c_interrupt c); simpl|]; repeat split; congruence.
Qed.

Lemma while_running_frame cycles m :
  running m = true ->
  match while_running cycles m with
  | (None, m', n) =>
      running m' = true /\ saved m' = saved m /\ n = length cycles
  | (Some (Ok _), _, _) => False
  | (Some (Raise _), m', n) =>
      running m' = true /\ saved m' = saved m /\ (n < length cycles)%nat
  end.
Proof.
  revert m. induction cycles as [|c rest IH]; intros m Hr; simpl; [done|].
  rewrite Hr. destruct (cycle_frame c m) as (Hr1 & Hs1 & _).
  destruct (cycle c m) as [[[]|e] m1]; simpl in *.
  - specialize (IH m1). rewrite Hr1, Hr in IH. specialize (IH eq_refl).
    destruct (while_running rest m1) as [[[[?|?]|] m2] n]; simpl;
      [done| |]; destruct IH as (? & ? & ?); repeat split;
      try congruence; lia.
  - repeat split; try congruence. lia.
Qed.

(** X11. [start_monitoring] ends in one of two ways: on Ctrl-C it returns,
    on any other exception the exception leaves it; either way the cycle that
    was under way does not count as completed, [running] is back to [False]
    and the history has been saved exactly once, as it stood at the end.
    While the loop goes on, every cycle is completed and nothing is saved. *)
Theorem monitoring_saves_on_exit (cycles : list Cycle) (m : APIMonitor) :
  let '(exit, m', completed) := start_monitoring cycles m in
  match exit with
  | StillRunning =>
      running m' = true /\ saved m' = saved m /\ completed = length cycles
  | Returned | Propagated _ =>
      running m' = false /\
      saved m' = (saved m ++ [metrics_history m'])%list /\
      (completed < length cycles)%nat
  end.
Proof.
  unfold start_monitoring.
  pose proof (while_running_frame cycles (set_running true m) eq_refl) as H.
  destruct (while_running cycles (set_running true m))
    as [[[[[]|[|e]]|] m'] n]; simpl in *; try done;
    destruct H as (_ & -> & ?); done.
Qed.

Lemma slice_last_id {A} (n : nat) (l : list A) :
  (length l <= n)%nat -> slice_last n l = l.
Proof.
  intros H. unfold slice_last.
  by replace (length l - n)%nat with 0%nat by lia.
Qed.


Lemma collect_metrics_entry c m :
  exists x,
    entry_of c x /\
    collect_metrics c m =
      (Ok x, set_history (slice_last 100 (metrics_history m ++ [x])) m).
Proof.
  unfold collect_metrics, entry_of.
  destruct (run_load_test_total (c_load_test c) (c_load_test_time c))
    as (lt & rate & -> & _).
  exists {| timestamp := c_timestamp c;
            health := check_health (c_health c);
            prediction := check_prediction_performance (c_prediction c);
            api_metrics := get_api_metrics (c_api_metrics c);
            load_test := lt |}.
  split; [by repeat split|]. simpl.
  destruct (100 <? _)%nat eqn:E; [done|].
  apply Nat.ltb_ge in E. by rewrite slice_last_id.
Qed.







(** *** The report *)

Lemma check_health_keys net :
  (exists s, check_health net !! "status" = Some (PyStr s)) /\
  (check_health net !! "response_time" = Some PyNone \/
   exists q, check_health net !! "response_time" = Some (PyFloat q)).
Proof.
  destruct net as [code data t|e]; simpl; [destruct (code =? 200)|];
    simplify_map_eq; eauto.
Qed.

Lemma entry_collected c x : entry_of c x -> collected x.
Proof.
  intros (_ & Hh & Hp & _ & Hlt).
  split; [by eexists|]. split; [by eexists|].
  destruct (run_load_test_total (c_load_test c) (c_load_test_time c))
    as (lt & rate & Hlt' & Hrate).
  rewrite Hlt in Hlt'. injection Hlt' as <-. by exists rate.
Qed.

(** Every entry of the history of a monitor was built by
    [collect_metrics], if it started that way. *)
Lemma collect_metrics_collected c m :
  Forall collected (metrics_history m) ->
  Forall collected (metrics_history (collect_metrics c m).2).
Proof.
  intros H. destruct (collect_metrics_entry c m) as (x & Hx & ->). simpl.
  apply Forall_drop, Forall_app. split; [done|].
  constructor; [by apply (entry_collected c)|done].
Qed.

Lemma health_statuses_total recent :
  Forall collected recent ->
  exists ss, health_statuses recent = Ok ss /\ length ss = length recent.
Proof.
  induction 1 as [|x recent ((net & Hh) & _) _ (ss & IH & Hlen)]; simpl.
  - by exists [].
  - destruct (check_health_keys net) as ([s Hs] & _).
    unfold getitem. rewrite Hh, Hs, IH. eexists. split; [done|].
    simpl. by rewrite Hlen.
Qed.

Lemma response_times_numbers (ds : list pydict) :
  Forall (fun d => d !! "response_time" = Some PyNone \/
                   exists q, d !! "response_time" = Some (PyFloat q)) ds ->
  exists ts, response_times ds = Ok ts.
Proof.
  induction 1 as [|d ds [Hd|[q Hd]] _ (ts & IH)]; simpl; [by exists []| |];
    unfold dict_get, getitem; rewrite Hd; simpl; rewrite IH; eauto.
Qed.

Lemma success_rates_total recent :
  Forall collected recent -> exists rs, success_rates recent = Ok rs.
Proof.
  induction 1 as [|x recent (_ & _ & rate & Hr) _ (rs & IH)]; simpl.
  - by exists [].
  - rewrite Hr. simpl. rewrite IH. eauto.
Qed.

Lemma healthy_count_bounds ss :
  0 <= healthy_count ss <= Z.of_nat (length ss).
Proof.
  unfold healthy_count.
  pose proof (length_filter (fun s => py_eq_str s "healthy" = true) ss). lia.
Qed.

Lemma last_slice_last {A} (n : nat) (l : list A) :
  (0 < n)%nat -> last (slice_last n l) = last l.
Proof.
  intros Hn. unfold slice_last.
  rewrite !last_lookup, length_drop, lookup_drop. f_equal. lia.
Qed.

(** X15. On a history whose entries were all built by [collect_metrics],
    entries of cycles with failed network calls included, [generate_report]
    does not raise.  Without entries it reports the error "No metrics
    available"; otherwise it reports on the last 10 entries at most, with an
    availability between 0 and 1 and the newest entry as latest metrics. *)
Theorem report_of_collected_history (m : APIMonitor) :
  Forall collected (metrics_history m) ->
  match metrics_history m with
  | [] => generate_report m = Ok (NoReport "No metrics available")
  | _ :: _ =>
      exists r,
        generate_report m = Ok (FullReport r) /\
        period r =
          "Last " ++ pretty (length (metrics_history m) `min` 10)%nat
          ++ " checks" /\
        (0 <= availability r <= 1)%Q /\
        latest_metrics r = last (metrics_history m)
  end.
Proof.
  intros Hall. unfold generate_report.
  destruct (metrics_history m) as [|x h] eqn:Eh; [done|].
  assert (0 < length (metrics_history m))%nat as Hne
    by (rewrite Eh; simpl; lia).
  rewrite <- Eh in *. clear Eh x h.
  set (recent := slice_last 10 (metrics_history m)).
  assert (Forall collected recent) as Hrec by by apply Forall_drop.
  destruct (health_statuses_total recent Hrec) as (ss & -> & Hlen).
  destruct (response_times_numbers (map health recent)) as (hts & ->).
  { apply Forall_fmap. eapply Forall_impl; [exact Hrec|].
    intros x ((net & Hh) & _). simpl. rewrite Hh. apply check_health_keys. }
  destruct (response_times_numbers (map prediction recent)) as (pts & ->).
  { apply Forall_fmap. eapply Forall_impl; [exact Hrec|].
    intros x (_ & (net & Hp) & _). simpl. rewrite Hp.
    apply check_prediction_performance_keys. }
  destruct (success_rates_total recent Hrec) as (rs & ->).
  eexists. split; [reflexivity|]. simpl.
  assert (length recent = (length (metrics_history m) `min` 10)%nat) as Hk
    by apply slice_last_length.
  split; [by rewrite Hk|]. split; [|apply last_slice_last; lia].
  pose proof (healthy_count_bounds ss) as Hb. rewrite Hlen in Hb.
  assert (0 < inject_Z (Z.of_nat (length recent)))%Q as Hpos.
  { change 0%Q with (inject_Z 0). rewrite <- Zlt_Qlt. lia. }
  split.
  - apply Qle_shift_div_l; [done|]. rewrite Qmult_0_l.
    change 0%Q with (inject_Z 0). rewrite <- Zle_Qle. lia.
  - apply Qle_shift_div_r; [done|]. rewrite Qmult_1_l.
    rewrite <- Zle_Qle. lia.
Qed.

(** *** Printing the report *)

Lemma stat_is_stat f xs : is_stat (stat f xs).
Proof. destruct xs; [by left|right; by eexists]. Qed.

(** The report of a history with entries, all built by [collect_metrics]. *)
Lemma generate_report_full (m : APIMonitor) :
  Forall collected (metrics_history m) ->
  metrics_history m <> [] ->
  exists r,
    generate_report m = Ok (FullReport r) /\
    is_stat (health_avg_response_time r) /\
    is_stat (prediction_avg_response_time r) /\
    is_stat (prediction_max_response_time r) /\
    is_stat (avg_success_rate r) /\
    is_stat (min_success_rate r) /\
    latest_metrics r = last (metrics_history m).
Proof.
  intros Hall Hne. unfold generate_report.
  destruct (metrics_history m) as [|x h] eqn:Eh; [done|].
  rewrite <- Eh in *. clear Eh x h.
  set (recent := slice_last 10 (metrics_history m)).
  assert (Forall collected recent) as Hrec by by apply Forall_drop.
  destruct (health_statuses_total recent Hrec) as (ss & -> & Hlen).
  destruct (response_times_numbers (map health recent)) as (hts & ->).
  { apply Forall_fmap. eapply Forall_impl; [exact Hrec|].
    intros x ((net & Hh) & _). simpl. rewrite Hh. apply check_health_keys. }
  destruct (response_times_numbers (map prediction recent)) as (pts & ->).
  { apply Forall_fmap. eapply Forall_impl; [exact Hrec|].
    intros x (_ & (net & Hp) & _). simpl. rewrite Hp.
    apply check_prediction_performance_keys. }
  destruct (success_rates_total recent Hrec) as (rs & ->).
  eexists. split; [reflexivity|]. simpl.
  repeat (split; [apply stat_is_stat|]).
  apply last_slice_last; lia.
Qed.

Lemma print_if_elem (line : Q -> Line) (v : pyval) :
  is_stat v ->
  exists l,
    print_if line v = Ok l /\
    forall x, x ∈ l <-> exists q, v = PyFloat q /\ ~ (q == 0)%Q /\ x = line q.
Proof.
  unfold print_if. intros [->|[q ->]]; simpl.
  - exists []. split; [done|]. intros x. rewrite elem_of_nil.
    split; [done|]. by intros (q & ? & _).
  - destruct (Qeq_bool q 0) eqn:E; simpl.
    + apply Qeq_bool_iff in E. exists []. split; [done|].
      intros x. rewrite elem_of_nil. split; [done|].
      intros (q' & [= <-] & Hq & _). by apply Hq.
    + apply Qeq_bool_neq in E. exists [line q]. split; [done|].
      intros x. rewrite list_elem_of_singleton. split.
      * intros ->. by exists q.
      * by intros (q' & [= <-] & _ & ->).
Qed.

Lemma print_status_lines (latest : Metrics) :
  collected latest ->
  (forall v, api_metrics latest !! "uptime_seconds" = Some v ->
             exists q, v = PyFloat q) ->
  exists s l,
    print_status latest = Ok (L_heading "CURRENT STATUS:" :: L_health s :: l) /\
    forall x, x ∈ l ->
      (exists n, x = L_total_requests n) \/ (exists h, x = L_uptime_hours h).
Proof.
  intros ((net & Hh) & _) Hup. unfold print_status, dict_get.
  destruct (check_health_keys net) as ([s Hs] & _). rewrite Hh, Hs.
  destruct (api_metrics latest !! "uptime_seconds") as [v|] eqn:Ev.
  - destruct (Hup v eq_refl) as [q ->]. simpl.
    eexists _, _. split; [reflexivity|]. intros x Hx.
    destruct (api_metrics latest !! "request_count");
      alert_cases Hx; subst x; eauto.
  - eexists _, _. split; [reflexivity|]. intros x Hx.
    destruct (api_metrics latest !! "request_count"); simpl in Hx;
      alert_cases Hx; subst x; eauto.
Qed.

(** X16. [print_report] prints only the error line when there is no
    history.  On a history built by [collect_metrics] whose newest entry holds
    a numeric uptime (or none) it does not raise, it always prints the
    availability and the current health status, and it prints an average
    only when that average exists and is not zero: a success rate of 0 and a
    missing response time both leave their line out. *)
Theorem print_report_lines (m : APIMonitor) :
  Forall collected (metrics_history m) ->
  numeric_uptime m ->
  match metrics_history m with
  | [] => print_report m = Ok [L_error "No metrics available"]
  | _ :: _ =>
      exists r lines,
        generate_report m = Ok (FullReport r) /\
        print_report m = Ok lines /\
        L_availability (availability r) ∈ lines /\
        (exists s, L_health s ∈ lines) /\
        (forall q, L_avg_success_rate q ∈ lines <->
                   avg_success_rate r = PyFloat q /\ ~ (q == 0)%Q) /\
        (forall q, L_health_avg_response_time q ∈ lines <->
                   health_avg_response_time r = PyFloat q /\ ~ (q == 0)%Q)
  end.
Proof.
  intros Hall Hup.
  destruct (metrics_history m) as [|x0 h0] eqn:Eh.
  { unfold print_report, generate_report. by rewrite Eh. }
  rewrite <- Eh in *.
  destruct (generate_report_full m Hall) as (r & Hr & H1 & H2 & H3 & H4 & H5 & Hl);
    [by rewrite Eh|].
  assert (exists latest, last (metrics_history m) = Some latest /\
                         collected latest) as (latest & Hlast & Hcol).
  { destruct (last (metrics_history m)) as [latest|] eqn:E.
    - exists latest. split; [done|].
      apply last_Some_elem_of in E. by eapply Forall_forall in Hall.
    - apply last_None in E. by rewrite Eh in E. }
  destruct (print_if_elem L_health_avg_response_time _ H1) as (l1 & E1 & M1).
  destruct (print_if_elem L_prediction_avg_response_time _ H2) as (l2 & E2 & M2).
  destruct (print_if_elem L_prediction_max_response_time _ H3) as (l3 & E3 & M3).
  destruct (print_if_elem L_avg_success_rate _ H4) as (l4 & E4 & M4).
  destruct (print_if_elem L_min_success_rate _ H5) as (l5 & E5 & M5).
  destruct (print_status_lines latest Hcol) as (s & l6 & E6 & M6).
  { intros v Hv. by apply (Hup latest). }
  exists r. eexists. split; [done|]. split.
  { unfold print_report. rewrite Hr. simpl.
    rewrite E1, E2, E3, E4, E5, Hl, Hlast, E6. reflexivity. }
  split; [rewrite !elem_of_cons; tauto|].
  split.
  { exists s. repeat first [rewrite elem_of_cons|rewrite elem_of_app]. tauto. }
  assert (forall (line : Q -> Line) (v : pyval) (l : list Line) (q : Q),
    (forall x, x ∈ l <-> exists q, v = PyFloat q /\ ~ (q == 0)%Q /\ x = line q) ->
    (forall q q', line q = line q' -> q = q') ->
    line q ∈ l <-> v = PyFloat q /\ ~ (q == 0)%Q) as Hown.
  { intros line v l q M Hinj. rewrite M. split.
    - intros (q' & -> & Hz & ->%Hinj). done.
    - intros (-> & Hz). by exists q. }
  assert (forall (line : Q -> Line) (v : pyval) (l : list Line) (x : Line),
    (forall x, x ∈ l <-> exists q, v = PyFloat q /\ ~ (q == 0)%Q /\ x = line q) ->
    (forall q, x <> line q) -> x ∈ l -> False) as Hother.
  { intros line v l x M Hne (q & _ & _ & ->)%M. by apply (Hne q). }
  split; intros q.
  - rewrite <- (Hown L_avg_success_rate _ l4 q M4) by (by intros ? ? [= ->]).
    split; [intros H|intros H;
                     repeat first [rewrite elem_of_cons|rewrite elem_of_app];
                     tauto].
    alert_cases H; try done.
    + by apply (Hother _ _ _ _ M1) in H.
    + by apply (Hother _ _ _ _ M2) in H.
    + by apply (Hother _ _ _ _ M3) in H.
    + by apply (Hother _ _ _ _ M5) in H.
    + apply M6 in H as [[? ?]|[? ?]]; done.
  - rewrite <- (Hown L_health_avg_response_time _ l1 q M1)
      by (by intros ? ? [= ->]).
    split; [intros H|intros H;
                     repeat first [rewrite elem_of_cons|rewrite elem_of_app];
                     tauto].
    alert_cases H; try done.
    + by apply (Hother _ _ _ _ M2) in H.
    + by apply (Hother _ _ _ _ M3) in H.
    + by apply (Hother _ _ _ _ M4) in H.
    + by apply (Hother _ _ _ _ M5) in H.
    + apply M6 in H as [[? ?]|[? ?]]; done.
Qed.

End MoreMonitorProperties.

(** * The further theorems at concrete artifacts, requests and cycles *)

Section MoreExamples.
Import Fixtures Scenarios Wire Monitor Report.


Lemma encoding_failure_is_500_witness :
  (app (ml := fragile_ml) noon (POST_predict (Some unborn)) fragile_service).1 =
    JSONResponse 500
      [("detail", "Prediction failed: Input contains a negative age")] /\
  work (app (ml := fragile_ml) noon (POST_predict (Some unborn))
          fragile_service).2 =
    (work fragile_service ++ [W_process_data])%list /\
  model_predictions
    (app (ml := fragile_ml) noon (POST_predict (Some unborn))
       fragile_service).2 =
    model_predictions fragile_service.
Proof.
  apply (encoding_failure_is_500 (ml := fragile_ml) noon unborn fragile_service
           (ValueError "Input contains a negative age")).
  - reflexivity.
  - reflexivity.
Defined.

Lemma load_test_success_rate_witness :
  exists lt rate,
    run_load_test 5 [answering; unreachable; overloaded; answering] (1 # 2) =
      Ok lt /\
    lt !! "total_requests" = Some (PyInt 5) /\
    lt !! "successful_requests" =
      Some (PyInt (successes [answering; unreachable; overloaded; answering])) /\
    lt !! "success_rate" = Some (PyFloat rate) /\
    (rate == successes [answering; unreachable; overloaded; answering] # 5)%Q /\
    (0 <= rate <= 1)%Q.
Proof.
  apply (load_test_success_rate
           [answering; unreachable; overloaded; answering] (1 # 2)).
  simpl. lia.
Defined.

Lemma alerts_of_answered_cycle_witness :
  exists alerts,
    warnings (cycle (cycle_with overloaded) fresh_monitor).2 =
      (warnings fresh_monitor ++ alerts)%list /\
    ((exists s, ApiHealth s ∈ alerts) <-> 503 <> 200) /\
    ((exists v, SlowHealthResponse v ∈ alerts) <-> (5 < 7)%Q) /\
    ((exists v, SlowPredictionResponse v ∈ alerts) <-> (2 < 1 # 10)%Q) /\
    ((exists v, LowSuccessRate v ∈ alerts) <->
     successes (c_load_test (cycle_with overloaded)) < 4).
Proof.
  apply (alerts_of_answered_cycle (cycle_with overloaded) fresh_monitor
           503 ∅ 7 200 (<["model_loaded" := PyBool true]> ∅) (1 # 10)).
  - reflexivity.
  - reflexivity.
Defined.




Lemma report_of_collected_history_witness :
  match metrics_history after_outage with
  | [] => generate_report after_outage = Ok (NoReport "No metrics available")
  | _ :: _ =>
      exists r,
        generate_report after_outage = Ok (FullReport r) /\
        period r =
          "Last " ++ pretty (length (metrics_history after_outage) `min` 10)%nat
          ++ " checks" /\
        (0 <= availability r <= 1)%Q /\
        latest_metrics r = last (metrics_history after_outage)
  end.
Proof.
  apply (report_of_collected_history after_outage).
  apply collect_metrics_collected. constructor.
Defined.

Lemma print_report_lines_witness :
  match metrics_history after_outage with
  | [] => print_report after_outage = Ok [L_error "No metrics available"]
  | _ :: _ =>
      exists r lines,
        generate_report after_outage = Ok (FullReport r) /\
        print_report after_outage = Ok lines /\
        L_availability (availability r) ∈ lines /\
        (exists s, L_health s ∈ lines) /\
        (forall q, L_avg_success_rate q ∈ lines <->
                   avg_success_rate r = PyFloat q /\ ~ (q == 0)%Q) /\
        (forall q, L_health_avg_response_time q ∈ lines <->
                   health_avg_response_time r = PyFloat q /\ ~ (q == 0)%Q)
  end.
Proof.
  apply (print_report_lines after_outage).
  - apply collect_metrics_collected. constructor.
  - intros latest v Hlast Hv. vm_compute in Hlast.
    injection Hlast as <-. vm_compute in Hv. discriminate.
Defined.

(** The report printed for a service that cannot be reached: no response
    time for the health check, and "ERROR" as current status. *)
Example report_after_outage :
  print_report after_outage =
    Ok [L_title; L_period "Last 1 checks";
        L_heading "HEALTH:"; L_availability 0;
        L_heading "PREDICTION PERFORMANCE:";
        L_prediction_avg_response_time (1 # 10);
        L_prediction_max_response_time (1 # 10);
        L_heading "LOAD TEST:";
        L_avg_success_rate (5 # 5); L_min_success_rate (5 # 5);
        L_heading "CURRENT STATUS:"; L_health "ERROR";
        L_rule].
Proof. vm_compute. reflexivity. Qed.

End MoreExamples.
